(** * simple-cs: a compute shader run in a headless EGL / GLES 3.1 context

    Shallow embedding of [main.c].  The program is a straight line of calls
    into libc, GBM, EGL and GLES, each followed by an [assert].  The libraries
    are not part of the program, so they are a parameter here: a [platform]
    answers every external call from a world state of its own.  The program
    itself is written in a small monad that threads the program's memory (the
    global [verbose], the two objects [main] owns) and the world, stops at a
    failed [assert], and records every external call with its answer. *)

From Stdlib Require Import ZArith List String Ascii Bool Lia.
Import ListNotations.
Local Open Scope string_scope.
Local Open Scope list_scope.
Local Open Scope Z_scope.

(** ** Constants of the system headers *)

Module K.
Definition NULL : Z := 0.
(* fcntl.h, stdio.h *)
Definition O_RDWR : Z := 2.
Definition SEEK_END : Z := 2.
(* EGL/egl.h, EGL/eglext.h *)
Definition EGL_FALSE : Z := 0.
Definition EGL_TRUE : Z := 1.
Definition EGL_NO_DISPLAY : Z := 0.
Definition EGL_NO_CONTEXT : Z := 0.
Definition EGL_NO_SURFACE : Z := 0.
Definition EGL_NONE : Z := 0x3038.
Definition EGL_RENDERABLE_TYPE : Z := 0x3040.
Definition EGL_OPENGL_ES3_BIT_KHR : Z := 0x0040.
Definition EGL_EXTENSIONS : Z := 0x3055.
Definition EGL_CONTEXT_CLIENT_VERSION : Z := 0x3098.
Definition EGL_OPENGL_ES_API : Z := 0x30A0.
Definition EGL_PLATFORM_GBM_MESA : Z := 0x31D7.
(* GLES3/gl31.h *)
Definition GL_FALSE : Z := 0.
Definition GL_TRUE : Z := 1.
Definition GL_NO_ERROR : Z := 0.
Definition GL_INVALID_OPERATION : Z := 0x0502.
Definition GL_VENDOR : Z := 0x1F00.
Definition GL_RENDERER : Z := 0x1F01.
Definition GL_VERSION : Z := 0x1F02.
Definition GL_EXTENSIONS : Z := 0x1F03.
Definition GL_COMPILE_STATUS : Z := 0x8B81.
Definition GL_LINK_STATUS : Z := 0x8B82.
Definition GL_INFO_LOG_LENGTH : Z := 0x8B84.
Definition GL_SHADING_LANGUAGE_VERSION : Z := 0x8B8C.
Definition GL_COMPUTE_SHADER : Z := 0x91B9.
End K.
Import K.

(** ** Data *)

(** [struct context].  Pointers and handles are addresses, [NULL] is 0. *)
Record context : Type := mk_context {
  egl_major : Z;
  egl_minor : Z;
  gbm : Z;
  egl_disp : Z;
  egl_ctx : Z;
  node_fd : Z
}.

(** [struct shader]. *)
Record shader : Type := mk_shader {
  program_id : Z
}.

Definition set_egl_version (major minor : Z) (c : context) : context :=
  mk_context major minor (gbm c) (egl_disp c) (egl_ctx c) (node_fd c).
Definition set_gbm (v : Z) (c : context) : context :=
  mk_context (egl_major c) (egl_minor c) v (egl_disp c) (egl_ctx c) (node_fd c).
Definition set_egl_disp (v : Z) (c : context) : context :=
  mk_context (egl_major c) (egl_minor c) (gbm c) v (egl_ctx c) (node_fd c).
Definition set_egl_ctx (v : Z) (c : context) : context :=
  mk_context (egl_major c) (egl_minor c) (gbm c) (egl_disp c) v (node_fd c).
Definition set_node_fd (v : Z) (c : context) : context :=
  mk_context (egl_major c) (egl_minor c) (gbm c) (egl_disp c) (egl_ctx c) v.

(** ** The external calls *)

(** An argument of [printf] after the format: an [int] for [%d], a C string
    for [%s] ([None] is the null pointer). *)
Inductive printf_arg : Type :=
| ArgInt (n : Z)
| ArgStr (s : option string).

(** One constructor per external function the program calls, with the
    arguments the program passes.  An array argument is given by its
    contents, an output pointer is left out (what the callee stores there is
    part of the answer, see [answer]).  [c_glGetProgramiv] is the one entry
    the program never calls: it is the GLES query that tells whether a link
    was accepted. *)
Inductive call : Type :=
| c_open (pathname : string) (flags : Z)
| c_gbm_create_device (fd : Z)
| c_eglGetPlatformDisplay (platform : Z) (native_display : Z) (attrib_list : Z)
| c_eglInitialize (dpy : Z)
| c_eglQueryString (dpy : Z) (name : Z)
| c_eglChooseConfig (dpy : Z) (attrib_list : list Z) (config_size : Z)
| c_eglBindAPI (api : Z)
| c_eglCreateContext (dpy : Z) (config : option Z) (share_context : Z)
                     (attrib_list : list Z)
| c_eglMakeCurrent (dpy : Z) (draw : Z) (read : Z) (ectx : Z)
| c_eglDestroyContext (dpy : Z) (ectx : Z)
| c_eglTerminate (dpy : Z)
| c_gbm_device_destroy (dev : Z)
| c_printf (format : string) (args : list printf_arg)
| c_glGetString (name : Z)
| c_fopen (filename : string) (mode : string)
| c_fseek (stream : Z) (offset : Z) (whence : Z)
| c_ftell (stream : Z)
| c_rewind (stream : Z)
| c_malloc (size : Z)
| c_fread (ptr : Z) (size : Z) (nmemb : Z) (stream : Z)
| c_fclose (stream : Z)
| c_free (ptr : Z)
| c_glCreateShader (type : Z)
| c_glGetError
| c_glShaderSource (sh : Z) (count : Z) (strings : list string) (length : Z)
| c_glCompileShader (sh : Z)
| c_glGetShaderiv (sh : Z) (pname : Z)
| c_glGetShaderInfoLog (sh : Z) (bufSize : Z) (infoLog : Z)
| c_glCreateProgram
| c_glAttachShader (program : Z) (sh : Z)
| c_glLinkProgram (program : Z)
| c_glDeleteShader (sh : Z)
| c_glUseProgram (program : Z)
| c_glDispatchCompute (num_groups_x : Z) (num_groups_y : Z) (num_groups_z : Z)
| c_glDeleteProgram (program : Z)
| c_glGetProgramiv (program : Z) (pname : Z).

(** What a call gives back: its return value, paired with what it stored
    through its output pointers.
    - [eglInitialize]: the [EGLBoolean] and the (major, minor) pair;
    - [eglChooseConfig]: the [EGLBoolean], the configuration stored in the
      one-element output array ([None]: nothing stored) and [num_config];
    - [eglQueryString], [glGetString]: a C string or the null pointer;
    - [fread]: the item count and the bytes that the buffer holds after
      the call, written by it or not;
    - [glGetShaderiv], [glGetProgramiv]: the integer stored in [*params];
    - [glGetShaderInfoLog]: the stored length and the text in the buffer. *)
Definition answer (c : call) : Type :=
  match c with
  | c_eglInitialize _ => (Z * (Z * Z))%type
  | c_eglChooseConfig _ _ _ => (Z * (option Z * Z))%type
  | c_eglQueryString _ _ | c_glGetString _ => option string
  | c_fread _ _ _ _ => (Z * string)%type
  | c_glGetShaderInfoLog _ _ _ => (Z * string)%type
  | c_gbm_device_destroy _ | c_rewind _ | c_free _
  | c_glShaderSource _ _ _ _ | c_glCompileShader _
  | c_glAttachShader _ _ | c_glLinkProgram _ | c_glDeleteShader _
  | c_glUseProgram _ | c_glDispatchCompute _ _ _ | c_glDeleteProgram _ => unit
  | _ => Z
  end.

(** A call together with its answer, as recorded in the run's trace. *)
Inductive event : Type :=
| Ev (c : call) (r : answer c).

Definition call_of (e : event) : call :=
  match e with Ev c _ => c end.

(** The libraries: a world state and the answer to every call in it. *)
Definition platform (W : Type) : Type :=
  forall c : call, W -> answer c * W.

(** ** The program's memory and its monad *)

(** The global [verbose], the two locals of [main] (which every function
    receives by address), and the world of the libraries. *)
Record state (W : Type) : Type := mk_state {
  verbose : Z;
  ctx : context;
  shdr : shader;
  world : W
}.
Arguments mk_state {W}.
Arguments verbose {W}.
Arguments ctx {W}.
Arguments shdr {W}.
Arguments world {W}.

(** How a computation ends: it returns, a failed [assert] aborts the process,
    or its behaviour is undefined from there on, because it reads or writes
    through a null pointer or outside the object a pointer refers to.  The
    model stops at such an access ([Faulted]) and says nothing of what the
    machine does next. *)
Inductive outcome (A : Type) : Type :=
| Returned (a : A)
| Aborted
| Faulted.
Arguments Returned {A}.
Arguments Aborted {A}.
Arguments Faulted {A}.

Definition M (W A : Type) : Type :=
  state W -> outcome A * state W * list event.

Definition result {W A} (x : outcome A * state W * list event) : outcome A :=
  fst (fst x).
Definition final {W A} (x : outcome A * state W * list event) : state W :=
  snd (fst x).
Definition events {W A} (x : outcome A * state W * list event) : list event :=
  snd x.
Definition calls {W A} (x : outcome A * state W * list event) : list call :=
  map call_of (events x).

Section Monad.
Context {W : Type}.

Definition Return {A} (a : A) : M W A :=
  fun s => (Returned a, s, []).

Definition bind {A B} (m : M W A) (k : A -> M W B) : M W B :=
  fun s =>
    match m s with
    | (Returned a, s1, t1) =>
        match k a s1 with
        | (o, s2, t2) => (o, s2, t1 ++ t2)
        end
    | (Aborted, s1, t1) => (Aborted, s1, t1)
    | (Faulted, s1, t1) => (Faulted, s1, t1)
    end.

(** [assert(e)]: a false [e] aborts the process. *)
Definition assert (b : bool) : M W unit :=
  fun s => if b then (Returned tt, s, []) else (Aborted, s, []).

Definition fault {A} : M W A :=
  fun s => (Faulted, s, []).

(** An external call: the platform answers and moves its world. *)
Definition ext (P : platform W) (c : call) : M W (answer c) :=
  fun s =>
    match P c (world s) with
    | (r, w) => (Returned r, mk_state (verbose s) (ctx s) (shdr s) w, [Ev c r])
    end.

Definition get_verbose : M W Z :=
  fun s => (Returned (verbose s), s, []).

(** [ctx->f] read and written. *)
Definition ctx_get {A} (f : context -> A) : M W A :=
  fun s => (Returned (f (ctx s)), s, []).
Definition ctx_set (upd : context -> context) : M W unit :=
  fun s => (Returned tt, mk_state (verbose s) (upd (ctx s)) (shdr s) (world s), []).

(** [shader->program_id] read and written. *)
Definition shader_get : M W Z :=
  fun s => (Returned (program_id (shdr s)), s, []).
Definition shader_set (v : Z) : M W unit :=
  fun s => (Returned tt, mk_state (verbose s) (ctx s) (mk_shader v) (world s), []).
End Monad.

Declare Scope prog_scope.
Delimit Scope prog_scope with prog.
Notation "x <- m ;; k" := (bind m (fun x => k))
  (at level 61, m at next level, right associativity) : prog_scope.
Notation "' p <- m ;; k" := (bind m (fun x => match x with p => k end))
  (at level 61, p pattern, m at next level, right associativity) : prog_scope.
Notation "m ;; k" := (bind m (fun _ => k))
  (at level 61, right associativity) : prog_scope.

(** A [long] or [int] converted to [size_t] (64 bits). *)
Definition to_size_t (z : Z) : Z := z mod 2 ^ 64.

(** The store [buf[index] = ...] into the object of [index + 1] bytes that
    [malloc] was asked for and returned as [buf]: undefined when [malloc]
    returned no object, or when the index is negative and so outside it. *)
Definition store {W} (buf index : Z) : M W unit :=
  if buf =? NULL then fault
  else if index <? 0 then fault
  else Return tt.

(** The [char *] given to [printf] for [%s], after a call that was given
    the [size] bytes at [ptr] to write a C string to: the [text] that the
    call left there, or no string at all, when there is no object or no
    room in it for as much as the terminator. *)
Definition string_at (ptr size : Z) (text : string) : option string :=
  if ptr =? NULL then None
  else if size <? 1 then None
  else Some text.
Arguments string_at : simpl never.

(** [if (verbose) body]. *)
Definition when {W} (c : bool) (body : M W unit) : M W unit :=
  if c then body else Return tt.

(** [strstr]: the offset of the first occurrence of [needle]. *)
Definition strstr (haystack needle : string) : option nat :=
  String.index 0 needle haystack.

Definition found (o : option nat) : bool :=
  match o with Some _ => true | None => false end.

(** The bytes of a buffer read as a C string: up to the first NUL. *)
Fixpoint c_str (s : string) : string :=
  match s with
  | EmptyString => EmptyString
  | String a s' => if Ascii.eqb a zero then EmptyString else String a (c_str s')
  end.

(** The format strings of the program ([LF] is the C escape for newline). *)
Definition LF : string := String (ascii_of_nat 10) EmptyString.

Definition fmt_egl_version : string :=
  Eval cbv in append "EGL v%d.%d" LF.
Definition fmt_egl_extensions : string :=
  Eval cbv in append "EGL Extensions: %s" LF.
Definition fmt_gl_vendor : string :=
  Eval cbv in append "GL Vendor: %s" LF.
Definition fmt_gl_renderer : string :=
  Eval cbv in append "GL Renderer: %s" LF.
Definition fmt_gl_version : string :=
  Eval cbv in append "GL Version: %s" LF.
Definition fmt_gl_shading_language : string :=
  Eval cbv in append "GL Shading language: %s" LF.
Definition fmt_gl_extensions : string :=
  Eval cbv in append "GL Extensions: %s" LF.
Definition fmt_shader_source : string :=
  Eval cbv in append "Compute shader source:" (append LF (append "%s" LF)).
Definition fmt_compile_error : string :=
  Eval cbv in append "Shader compilation error: %s"
                (append LF (append " %s" LF)).

(** ** The program *)

Section Program.
Context {W : Type} (P : platform W).
Local Open Scope prog_scope.

Definition attr_list : list Z :=
  [EGL_RENDERABLE_TYPE; EGL_OPENGL_ES3_BIT_KHR; EGL_NONE].

Definition ctx_attr : list Z :=
  [EGL_CONTEXT_CLIENT_VERSION; 3; EGL_NONE].

Definition context_init : M W unit :=
  (* Open DRM render node *)
  fd <- ext P (c_open "/dev/dri/renderD128" O_RDWR) ;;
  ctx_set (set_node_fd fd) ;;
  fd <- ctx_get node_fd ;;
  assert (fd >? 0) ;;
  (* Create GBM device *)
  fd <- ctx_get node_fd ;;
  dev <- ext P (c_gbm_create_device fd) ;;
  ctx_set (set_gbm dev) ;;
  dev <- ctx_get gbm ;;
  assert (dev >? 0) ;;
  (* Get EGL platform display *)
  dev <- ctx_get gbm ;;
  dpy <- ext P (c_eglGetPlatformDisplay EGL_PLATFORM_GBM_MESA dev NULL) ;;
  ctx_set (set_egl_disp dpy) ;;
  dpy <- ctx_get egl_disp ;;
  assert (negb (dpy =? EGL_NO_DISPLAY)) ;;
  (* Initialize EGL *)
  dpy <- ctx_get egl_disp ;;
  '(ret, (major, minor)) <- ext P (c_eglInitialize dpy) ;;
  ctx_set (set_egl_version major minor) ;;
  assert (negb (ret =? 0)) ;;
  (* Check for required extensions *)
  dpy <- ctx_get egl_disp ;;
  egl_exts <- ext P (c_eglQueryString dpy EGL_EXTENSIONS) ;;
  match egl_exts with
  | None => fault
  | Some exts =>
      assert (found (strstr exts "EGL_KHR_create_context")) ;;
      assert (found (strstr exts "EGL_KHR_surfaceless_context")) ;;
      (* Choose EGL config *)
      dpy <- ctx_get egl_disp ;;
      '(ret, (config, count)) <- ext P (c_eglChooseConfig dpy attr_list 1) ;;
      assert (negb (ret =? 0)) ;;
      (* Bind GLES API *)
      ret <- ext P (c_eglBindAPI EGL_OPENGL_ES_API) ;;
      assert (negb (ret =? 0)) ;;
      (* Create EGL context *)
      dpy <- ctx_get egl_disp ;;
      ectx <- ext P (c_eglCreateContext dpy config EGL_NO_CONTEXT ctx_attr) ;;
      ctx_set (set_egl_ctx ectx) ;;
      ectx <- ctx_get egl_ctx ;;
      assert (negb (ectx =? EGL_NO_CONTEXT)) ;;
      (* Set EGL context to current *)
      dpy <- ctx_get egl_disp ;;
      ectx <- ctx_get egl_ctx ;;
      ret <- ext P (c_eglMakeCurrent dpy EGL_NO_SURFACE EGL_NO_SURFACE ectx) ;;
      assert (negb (ret =? 0))
  end.

Definition context_uninit : M W unit :=
  dpy <- ctx_get egl_disp ;;
  ectx <- ctx_get egl_ctx ;;
  ext P (c_eglDestroyContext dpy ectx) ;;
  ctx_set (set_egl_ctx NULL) ;;
  ctx_set (set_egl_disp NULL) ;;
  dpy <- ctx_get egl_disp ;;
  ext P (c_eglTerminate dpy) ;;
  ctx_set (set_egl_disp NULL) ;;
  dev <- ctx_get gbm ;;
  ext P (c_gbm_device_destroy dev) ;;
  ctx_set (set_gbm NULL).

Definition context_print_info : M W unit :=
  major <- ctx_get egl_major ;;
  minor <- ctx_get egl_minor ;;
  ext P (c_printf fmt_egl_version [ArgInt major; ArgInt minor]) ;;
  v <- get_verbose ;;
  when (negb (v =? 0)) (
    dpy <- ctx_get egl_disp ;;
    egl_exts <- ext P (c_eglQueryString dpy EGL_EXTENSIONS) ;;
    ext P (c_printf fmt_egl_extensions [ArgStr egl_exts]) ;;
    Return tt) ;;
  str <- ext P (c_glGetString GL_VENDOR) ;;
  ext P (c_printf fmt_gl_vendor [ArgStr str]) ;;
  str <- ext P (c_glGetString GL_RENDERER) ;;
  ext P (c_printf fmt_gl_renderer [ArgStr str]) ;;
  str <- ext P (c_glGetString GL_VERSION) ;;
  ext P (c_printf fmt_gl_version [ArgStr str]) ;;
  str <- ext P (c_glGetString GL_SHADING_LANGUAGE_VERSION) ;;
  ext P (c_printf fmt_gl_shading_language [ArgStr str]) ;;
  v <- get_verbose ;;
  when (negb (v =? 0)) (
    str <- ext P (c_glGetString GL_EXTENSIONS) ;;
    ext P (c_printf fmt_gl_extensions [ArgStr str]) ;;
    Return tt).

(** The check after a GL call: [assert(glGetError() == GL_NO_ERROR)]. *)
Definition assert_no_gl_error : M W unit :=
  e <- ext P c_glGetError ;;
  assert (e =? GL_NO_ERROR).

Definition shader_load (filename : string) : M W unit :=
  f <- ext P (c_fopen filename "rb") ;;
  assert (negb (f =? NULL)) ;;
  ext P (c_fseek f 0 SEEK_END) ;;
  filesize <- ext P (c_ftell f) ;;
  ext P (c_rewind f) ;;
  src <- ext P (c_malloc (to_size_t (filesize + 1))) ;;
  '(_, bytes) <- ext P (c_fread src 1 (to_size_t filesize) f) ;;
  ext P (c_fclose f) ;;
  (* src[filesize] = 0: the buffer read as a C string from here on *)
  store src filesize ;;
  let text := c_str (substring 0 (Z.to_nat filesize) bytes) in
  v <- get_verbose ;;
  when (negb (v =? 0)) (
    ext P (c_printf fmt_shader_source [ArgStr (Some text)]) ;;
    Return tt) ;;
  shader_id <- ext P (c_glCreateShader GL_COMPUTE_SHADER) ;;
  assert_no_gl_error ;;
  ext P (c_glShaderSource shader_id 1 [text] NULL) ;;
  assert_no_gl_error ;;
  ext P (c_glCompileShader shader_id) ;;
  assert_no_gl_error ;;
  (* Check for compilation errors *)
  success <- ext P (c_glGetShaderiv shader_id GL_COMPILE_STATUS) ;;
  when (success =? GL_FALSE) (
    log_size <- ext P (c_glGetShaderiv shader_id GL_INFO_LOG_LENGTH) ;;
    log_buf <- ext P (c_malloc (to_size_t log_size)) ;;
    '(_, log) <- ext P (c_glGetShaderInfoLog shader_id log_size log_buf) ;;
    ext P (c_printf fmt_compile_error
                    [ArgStr (Some filename);
                     ArgStr (string_at log_buf log_size log)]) ;;
    ext P (c_free log_buf) ;;
    assert (negb (success =? GL_FALSE))) ;;
  prog <- ext P c_glCreateProgram ;;
  shader_set prog ;;
  prog <- shader_get ;;
  ext P (c_glAttachShader prog shader_id) ;;
  assert_no_gl_error ;;
  prog <- shader_get ;;
  ext P (c_glLinkProgram prog) ;;
  assert_no_gl_error ;;
  ext P (c_glDeleteShader shader_id).

Definition shader_run : M W unit :=
  prog <- shader_get ;;
  ext P (c_glUseProgram prog) ;;
  assert_no_gl_error ;;
  ext P (c_glDispatchCompute 1 1 1) ;;
  assert_no_gl_error.

Definition shader_unload : M W unit :=
  prog <- shader_get ;;
  ext P (c_glDeleteProgram prog).

Definition main (argc : Z) (argp : list string) : M W Z :=
  context_init ;;
  context_print_info ;;
  shader_load "shader.cs" ;;
  shader_run ;;
  shader_unload ;;
  context_uninit ;;
  Return 0.
End Program.

(** The memory when [main] is entered: [verbose] has its initialiser, the two
    locals of [main] hold whatever the stack held. *)
Definition process_start {W} (c0 : context) (sh0 : shader) (w : W) : state W :=
  mk_state 0 c0 sh0 w.

(** ** A small driver to run the program on

    A simulated machine with a render node and a surfaceless-capable EGL.
    Three switches select the situations of interest: whether any
    configuration matches, whether the source compiles, whether the program
    links.  As in GLES, a rejected compile or link raises no GL error: it
    only clears the object's status flag, and using a program that did not
    link raises [GL_INVALID_OPERATION]; as in EGL, [eglChooseConfig] succeeds
    with [num_config] 0 when nothing matches and [eglCreateContext] refuses a
    configuration that was never selected. *)

Record sim_config : Type := mk_sim_config {
  sim_has_config : bool;
  sim_compiles : bool;
  sim_links : bool;
  sim_source : string;
  sim_log : string
}.

Record sim_world : Type := mk_sim_world {
  gl_error : Z;
  link_status : Z
}.

Definition sim_boot : sim_world := mk_sim_world GL_NO_ERROR GL_FALSE.

Definition strlen (s : string) : Z := Z.of_nat (String.length s).

Definition sim (d : sim_config) : platform sim_world :=
  fun c w =>
    match c as c0 return answer c0 * sim_world with
    | c_open _ _ => (3, w)
    | c_gbm_create_device _ => (0x1000, w)
    | c_eglGetPlatformDisplay _ _ _ => (0x2000, w)
    | c_eglInitialize _ => ((EGL_TRUE, (1, 5)), w)
    | c_eglQueryString _ _ =>
        (Some "EGL_KHR_create_context EGL_KHR_surfaceless_context", w)
    | c_eglChooseConfig _ _ _ =>
        (if sim_has_config d then (EGL_TRUE, (Some 0x2100, 1))
         else (EGL_TRUE, (None, 0)), w)
    | c_eglBindAPI _ => (EGL_TRUE, w)
    | c_eglCreateContext _ config _ _ =>
        (match config with Some _ => 0x3000 | None => EGL_NO_CONTEXT end, w)
    | c_eglMakeCurrent _ _ _ _ => (EGL_TRUE, w)
    | c_eglDestroyContext dpy _ =>
        (if dpy =? EGL_NO_DISPLAY then EGL_FALSE else EGL_TRUE, w)
    | c_eglTerminate dpy =>
        (if dpy =? EGL_NO_DISPLAY then EGL_FALSE else EGL_TRUE, w)
    | c_gbm_device_destroy _ => (tt, w)
    | c_printf _ _ => (0, w)
    | c_glGetString _ => (Some "sim", w)
    | c_fopen _ _ => (0x4000, w)
    | c_fseek _ _ _ => (0, w)
    | c_ftell _ => (strlen (sim_source d), w)
    | c_rewind _ => (tt, w)
    | c_malloc _ => (0x5000, w)
    | c_fread _ _ nmemb _ => ((nmemb, sim_source d), w)
    | c_fclose _ => (0, w)
    | c_free _ => (tt, w)
    | c_glCreateShader _ => (1, w)
    | c_glGetError => (gl_error w, mk_sim_world GL_NO_ERROR (link_status w))
    | c_glShaderSource _ _ _ _ => (tt, w)
    | c_glCompileShader _ => (tt, w)
    | c_glGetShaderiv _ pname =>
        (if pname =? GL_COMPILE_STATUS
         then (if sim_compiles d then GL_TRUE else GL_FALSE)
         else strlen (sim_log d) + 1, w)
    | c_glGetShaderInfoLog _ _ _ => ((strlen (sim_log d), sim_log d), w)
    | c_glCreateProgram => (2, w)
    | c_glAttachShader _ _ => (tt, w)
    | c_glLinkProgram _ =>
        (tt, mk_sim_world (gl_error w)
                          (if sim_links d then GL_TRUE else GL_FALSE))
    | c_glDeleteShader _ => (tt, w)
    | c_glUseProgram _ =>
        (tt, if link_status w =? GL_TRUE then w
             else mk_sim_world GL_INVALID_OPERATION (link_status w))
    | c_glDispatchCompute _ _ _ => (tt, w)
    | c_glDeleteProgram _ => (tt, w)
    | c_glGetProgramiv _ pname =>
        (if pname =? GL_LINK_STATUS then link_status w else 0, w)
    end.

Definition kernel_source : string :=
  "#version 310 es layout(local_size_x = 1) in; void main() { }".

Definition sim_good : sim_config :=
  mk_sim_config true true true kernel_source "".
Definition sim_no_config : sim_config :=
  mk_sim_config false true true kernel_source "".
Definition sim_syntax_error : sim_config :=
  mk_sim_config true false true "void main( {"
                "0:1(12): error: syntax error, unexpected '{'".
Definition sim_link_rejected : sim_config :=
  mk_sim_config true true false "#version 310 es void main() { }"
                "".

Definition junk_context : context := mk_context 7 7 7 7 7 7.
Definition junk_shader : shader := mk_shader 7.
Definition sim_start : state sim_world :=
  process_start junk_context junk_shader sim_boot.


(** ** The steps of [context_init] *)

Inductive init_step : Type :=
| st_open_device
| st_create_device
| st_get_display
| st_initialize_display
| st_check_extensions
| st_choose_config
| st_bind_api
| st_create_context
| st_make_current.

Definition init_order : list init_step :=
  [st_open_device; st_create_device; st_get_display; st_initialize_display;
   st_check_extensions; st_choose_config; st_bind_api; st_create_context;
   st_make_current].

Definition step_of (c : call) : option init_step :=
  match c with
  | c_open _ _ => Some st_open_device
  | c_gbm_create_device _ => Some st_create_device
  | c_eglGetPlatformDisplay _ _ _ => Some st_get_display
  | c_eglInitialize _ => Some st_initialize_display
  | c_eglQueryString _ _ => Some st_check_extensions
  | c_eglChooseConfig _ _ _ => Some st_choose_config
  | c_eglBindAPI _ => Some st_bind_api
  | c_eglCreateContext _ _ _ _ => Some st_create_context
  | c_eglMakeCurrent _ _ _ _ => Some st_make_current
  | _ => None
  end.

(** The answer of an acquisition call is one that [context_init] does not
    go on with: no descriptor, a null handle, [EGL_FALSE], or an extension
    string that is missing or does not contain both required names. *)
Definition step_rejected (e : event) : bool :=
  match e with
  | Ev c r =>
      match c as c0 return answer c0 -> bool with
      | c_open _ _ => fun fd => negb (fd >? 0)
      | c_gbm_create_device _ => fun dev => negb (dev >? 0)
      | c_eglGetPlatformDisplay _ _ _ => fun dpy => dpy =? EGL_NO_DISPLAY
      | c_eglInitialize _ => fun a => fst a =? EGL_FALSE
      | c_eglQueryString _ _ => fun a =>
          match a with
          | None => true
          | Some exts =>
              negb (found (strstr exts "EGL_KHR_create_context") &&
                    found (strstr exts "EGL_KHR_surfaceless_context"))
          end
      | c_eglChooseConfig _ _ _ => fun a => fst a =? EGL_FALSE
      | c_eglBindAPI _ => fun a => a =? EGL_FALSE
      | c_eglCreateContext _ _ _ _ => fun ectx => ectx =? EGL_NO_CONTEXT
      | c_eglMakeCurrent _ _ _ _ => fun a => a =? EGL_FALSE
      | _ => fun _ => false
      end r
  end.

(** [eglChooseConfig] answers [EGL_TRUE] although no configuration matched:
    [num_config] is 0. *)
Definition empty_selection (e : event) : bool :=
  match e with
  | Ev c r =>
      match c as c0 return answer c0 -> bool with
      | c_eglChooseConfig _ _ _ => fun a =>
          negb (fst a =? EGL_FALSE) && (snd (snd a) <? 1)
      | _ => fun _ => false
      end r
  end.

(** The step failed: its answer says so, or the selection found no
    configuration. *)
Definition step_failed (e : event) : bool :=
  step_rejected e || empty_selection e.

Definition step_ok (e : event) : bool := negb (step_failed e).

Definition step_accepted (e : event) : bool := negb (step_rejected e).

(** The events of a complete [context_init], from the nine answers: each
    handle is passed on to the operations that build on it. *)
Definition init_trace (fd dev dpy : Z) (init : Z * (Z * Z)) (exts : string)
    (chosen : Z * (option Z * Z)) (bound ectx current : Z) : list event :=
  [Ev (c_open "/dev/dri/renderD128" O_RDWR) fd;
   Ev (c_gbm_create_device fd) dev;
   Ev (c_eglGetPlatformDisplay EGL_PLATFORM_GBM_MESA dev NULL) dpy;
   Ev (c_eglInitialize dpy) init;
   Ev (c_eglQueryString dpy EGL_EXTENSIONS) (Some exts);
   Ev (c_eglChooseConfig dpy attr_list 1) chosen;
   Ev (c_eglBindAPI EGL_OPENGL_ES_API) bound;
   Ev (c_eglCreateContext dpy (fst (snd chosen)) EGL_NO_CONTEXT ctx_attr) ectx;
   Ev (c_eglMakeCurrent dpy EGL_NO_SURFACE EGL_NO_SURFACE ectx) current].

(** The platform [P], except that [eglChooseConfig] reports [num_config] 0
    whatever it found. *)
Definition zero_num_config {W : Type} (P : platform W) : platform W :=
  fun c w =>
    match c as c0 return answer c0 * W with
    | c_eglChooseConfig dpy attribs size =>
        match P (c_eglChooseConfig dpy attribs size) w with
        | ((ret, (config, _)), w') => ((ret, (config, 0)), w')
        end
    | c0 => P c0 w
    end.

(** ** Vocabulary for the other operations *)

(** The three calls that release a resource of the context. *)
Definition is_teardown (c : call) : bool :=
  match c with
  | c_eglDestroyContext _ _ | c_eglTerminate _ | c_gbm_device_destroy _ => true
  | _ => false
  end.

(** The calls that only read and print. *)
Definition is_query (c : call) : bool :=
  match c with
  | c_eglQueryString _ _ | c_glGetString _ | c_printf _ _ => true
  | _ => false
  end.

(** A line of the report: a string is queried ([an] is the answer) and
    printed under its format (and [printf] returns [snd an]). *)
Definition egl_extensions_report (dpy : Z) (an : option string * Z)
  : list event :=
  [Ev (c_eglQueryString dpy EGL_EXTENSIONS) (fst an);
   Ev (c_printf fmt_egl_extensions [ArgStr (fst an)]) (snd an)].

Definition gl_string_report (name : Z) (fmt : string) (an : option string * Z)
  : list event :=
  [Ev (c_glGetString name) (fst an);
   Ev (c_printf fmt [ArgStr (fst an)]) (snd an)].

(** What [glGetError] answered, for an event of that call. *)
Definition error_code (e : event) : option Z :=
  match e with
  | Ev c r =>
      match c as c0 return answer c0 -> option Z with
      | c_glGetError => fun code => Some code
      | _ => fun _ => None
      end r
  end.

Definition last_event (t : list event) : option event :=
  match rev t with
  | [] => None
  | e :: _ => Some e
  end.

(** The printed lines that exist only in verbose mode. *)
Definition verbose_only (c : call) : bool :=
  match c with
  | c_printf fmt _ =>
      String.eqb fmt fmt_egl_extensions ||
      String.eqb fmt fmt_gl_extensions ||
      String.eqb fmt fmt_shader_source
  | _ => false
  end.

Definition not_verbose_only (c : call) : bool := negb (verbose_only c).

(** The calls that create or use a program object. *)
Definition uses_program (c : call) : bool :=
  match c with
  | c_glCreateProgram | c_glAttachShader _ _ | c_glLinkProgram _
  | c_glUseProgram _ | c_glDispatchCompute _ _ _ | c_glDeleteProgram _ => true
  | _ => false
  end.

Definition no_program (c : call) : bool := negb (uses_program c).

(** The calls of the other operations. *)
Definition init_call (c : call) : bool :=
  match step_of c with
  | Some _ => true
  | None => false
  end.

Definition load_call (c : call) : bool :=
  match c with
  | c_fopen _ _ | c_fseek _ _ _ | c_ftell _ | c_rewind _ | c_malloc _
  | c_fread _ _ _ _ | c_fclose _ | c_free _ | c_printf _ _
  | c_glCreateShader _ | c_glGetError | c_glShaderSource _ _ _ _
  | c_glCompileShader _ | c_glGetShaderiv _ _ | c_glGetShaderInfoLog _ _ _
  | c_glCreateProgram | c_glAttachShader _ _ | c_glLinkProgram _
  | c_glDeleteShader _ => true
  | _ => false
  end.

Definition run_call (c : call) : bool :=
  match c with
  | c_glUseProgram _ | c_glGetError | c_glDispatchCompute _ _ _ => true
  | _ => false
  end.

Definition unload_call (c : call) : bool :=
  match c with
  | c_glDeleteProgram _ => true
  | _ => false
  end.

(** What [shader_load] does once the compiler has rejected shader [sh] of
    file [filename]: it asks for the length [n] of the log, allocates [n]
    bytes (at [buf]), fetches the log, prints file name and log, frees. *)
Definition log_report (filename : string) (sh n buf : Z)
    (info : Z * string) (printed : Z) : list event :=
  [Ev (c_glGetShaderiv sh GL_INFO_LOG_LENGTH) n;
   Ev (c_malloc (to_size_t n)) buf;
   Ev (c_glGetShaderInfoLog sh n buf) info;
   Ev (c_printf fmt_compile_error
                [ArgStr (Some filename); ArgStr (string_at buf n (snd info))])
      printed;
   Ev (c_free buf) tt].

(** The same, from the status query that found the rejection. *)
Definition compile_failure_report (filename : string) (sh n buf : Z)
    (info : Z * string) (printed : Z) : list event :=
  Ev (c_glGetShaderiv sh GL_COMPILE_STATUS) GL_FALSE
  :: log_report filename sh n buf info printed.

(** ** Running operations one after the other *)

(** [in_order ops s o s' t]: the operations [ops], started in [s] one after
    the other, end with outcome [o] in memory [s'] after the events [t].  An
    operation is started only when all those before it have returned; the
    first one that does not return ends the run. *)
Inductive in_order {W : Type} :
  list (M W unit) -> state W -> outcome unit -> state W -> list event -> Prop :=
| in_order_done s :
    in_order [] s (Returned tt) s []
| in_order_next op ops s s1 t1 o s2 t2 :
    op s = (Returned tt, s1, t1) ->
    in_order ops s1 o s2 t2 ->
    in_order (op :: ops) s o s2 (t1 ++ t2)
| in_order_stop op ops s o s1 t1 :
    op s = (o, s1, t1) ->
    o <> Returned tt ->
    in_order (op :: ops) s o s1 t1.

(** Every operation of [ops] returns, each started where the previous one
    ended. *)
Fixpoint all_return {W : Type} (ops : list (M W unit)) (s : state W) : Prop :=
  match ops with
  | [] => True
  | op :: rest =>
      exists s1 t1, op s = (Returned tt, s1, t1) /\ all_return rest s1
  end.

(** The six operations of [main], in program order. *)
Definition operations {W : Type} (P : platform W) : list (M W unit) :=
  [context_init P; context_print_info P; shader_load P "shader.cs";
   shader_run P; shader_unload P; context_uninit P].

(** The exit of the process for the outcome of the six operations. *)
Definition exit_of (o : outcome unit) : outcome Z :=
  match o with
  | Returned _ => Returned 0
  | Aborted => Aborted
  | Faulted => Faulted
  end.

(** ** Invariants of computations *)

(** [keeps pv Q m]: started with a [verbose] that satisfies [pv], the
    computation [m] ends with such a [verbose] and makes only calls that
    satisfy [Q]. *)
Definition keeps {W A : Type} (pv : Z -> Prop) (Q : call -> bool)
    (m : M W A) : Prop :=
  forall s, pv (verbose s) ->
    pv (verbose (final (m s))) /\ forallb Q (calls (m s)) = true.

Definition verbose_off (v : Z) : Prop := v = 0.

(** ** Runs on the simulated machine *)

Definition command_line : list string := ["simple-cs"].

(** The memory after a successful [context_init] on the machine [d]. *)
Definition sim_initialized (d : sim_config) : state sim_world :=
  final (context_init (sim d) sim_start).

(** The memory after [shader_load] has returned, too. *)
Definition sim_loaded (d : sim_config) : state sim_world :=
  final (shader_load (sim d) "shader.cs" (sim_initialized d)).

Definition is_glGetProgramiv (c : call) : bool :=
  match c with
  | c_glGetProgramiv _ _ => true
  | _ => false
  end.

(** ** Vocabulary for [shader_load], [shader_run] and whole runs *)

(** An answer that [shader_load] or [shader_run] checks reports a failure:
    [fopen] gave no stream, [glGetError] gave an error code, or the compiler
    rejected the shader. *)
Definition load_failed (e : event) : bool :=
  match e with
  | Ev c r =>
      match c as c0 return answer c0 -> bool with
      | c_fopen _ _ => fun f => f =? NULL
      | c_glGetError => fun code => negb (code =? GL_NO_ERROR)
      | c_glGetShaderiv _ pname => fun status =>
          (pname =? GL_COMPILE_STATUS) && (status =? GL_FALSE)
      | _ => fun _ => false
      end r
  end.

(** The file is read: its size is taken by seeking to the end, [size + 1]
    bytes are allocated, [size] bytes are read, the stream is closed. *)
Definition read_trace (filename : string) (f sought size src : Z)
    (read : Z * string) (closed : Z) : list event :=
  [Ev (c_fopen filename "rb") f;
   Ev (c_fseek f 0 SEEK_END) sought;
   Ev (c_ftell f) size;
   Ev (c_rewind f) tt;
   Ev (c_malloc (to_size_t (size + 1))) src;
   Ev (c_fread src 1 (to_size_t size) f) read;
   Ev (c_fclose f) closed].

(** The text of the buffer after [src[filesize] = 0], for a size that is
    not negative. *)
Definition source_text (size : Z) (read : Z * string) : string :=
  c_str (substring 0 (Z.to_nat size) (snd read)).

(** The line printed in verbose mode only. *)
Definition source_line (v : Z) (text : string) (printed : Z) : list event :=
  if v =? 0 then []
  else [Ev (c_printf fmt_shader_source [ArgStr (Some text)]) printed].

(** The shader [sh] is created, given the text and compiled, each call
    followed by an error query that finds no error; the compiler's status
    is [status]. *)
Definition compile_trace (sh : Z) (text : string) (status : Z) : list event :=
  [Ev (c_glCreateShader GL_COMPUTE_SHADER) sh;
   Ev c_glGetError GL_NO_ERROR;
   Ev (c_glShaderSource sh 1 [text] NULL) tt;
   Ev c_glGetError GL_NO_ERROR;
   Ev (c_glCompileShader sh) tt;
   Ev c_glGetError GL_NO_ERROR;
   Ev (c_glGetShaderiv sh GL_COMPILE_STATUS) status].

(** The program [prog] is created, the shader attached, the program linked
    (no error found after either), the shader deleted. *)
Definition link_trace (sh prog : Z) : list event :=
  [Ev c_glCreateProgram prog;
   Ev (c_glAttachShader prog sh) tt;
   Ev c_glGetError GL_NO_ERROR;
   Ev (c_glLinkProgram prog) tt;
   Ev c_glGetError GL_NO_ERROR;
   Ev (c_glDeleteShader sh) tt].

Definition is_dispatch (c : call) : bool :=
  match c with
  | c_glDispatchCompute _ _ _ => true
  | _ => false
  end.

(** The platform [P], except that [fopen] finds no file. *)
Definition no_file {W : Type} (P : platform W) : platform W :=
  fun c w =>
    match c as c0 return answer c0 * W with
    | c_fopen _ _ => (NULL, w)
    | c0 => P c0 w
    end.

(** [needle] occurs in [hay] at some offset. *)
Definition occurs (needle hay : string) : Prop :=
  exists m, substring m (String.length needle) hay = needle.

(** The string an [eglQueryString] or [glGetString] event answered. *)
Definition queried_string (e : event) : option (option string) :=
  match e with
  | Ev c r =>
      match c as c0 return answer c0 -> option (option string) with
      | c_eglQueryString _ _ => fun a => Some a
      | c_glGetString _ => fun a => Some a
      | _ => fun _ => None
      end r
  end.

(** The sources handed to [glShaderSource] and the sizes [ftell] reported,
    in a trace. *)
Definition submitted_sources (t : list event) : list (list string) :=
  flat_map (fun e => match call_of e with
                     | c_glShaderSource _ _ strings _ => [strings]
                     | _ => []
                     end) t.

Definition file_sizes (t : list event) : list Z :=
  flat_map (fun e =>
              match e with
              | Ev c r =>
                  match c as c0 return answer c0 -> list Z with
                  | c_ftell _ => fun size => [size]
                  | _ => fun _ => []
                  end r
              end) t.

(** No character of [s] is NUL. *)
Definition nul_free (s : string) : Prop :=
  Forall (fun a => a <> zero) (list_ascii_of_string s).

(** [ftell] reports no size or [malloc] gives no object: the store that
    terminates the source is then undefined. *)
Definition storage_failed (e : event) : bool :=
  match e with
  | Ev c r =>
      match c as c0 return answer c0 -> bool with
      | c_ftell _ => fun size => size <? 0
      | c_malloc _ => fun buf => buf =? NULL
      | _ => fun _ => false
      end r
  end.

(** An answer on which [shader_load] does not go on. *)
Definition load_answer_failed (e : event) : bool :=
  load_failed e || storage_failed e.

(** An answer on which the program does not go on. *)
Definition answer_failed (e : event) : bool :=
  step_rejected e || load_answer_failed e.

(** The file and the allocator fail in nothing that [shader_load] relies
    on, and the GL reports no error. *)
Definition io_failed (e : event) : bool :=
  match e with
  | Ev c r =>
      match c as c0 return answer c0 -> bool with
      | c_fopen _ _ => fun f => f =? NULL
      | c_ftell _ => fun size => size <? 0
      | c_malloc _ => fun buf => buf =? NULL
      | c_glGetError => fun code => negb (code =? GL_NO_ERROR)
      | _ => fun _ => false
      end r
  end.

(** No answer of the platform, in any of its states, satisfies [F]. *)
Definition never {W : Type} (F : event -> bool) (P : platform W) : Prop :=
  forall c w, F (Ev c (fst (P c w))) = false.

(** The compiler of the platform rejects whatever it is given. *)
Definition rejects_every_source {W : Type} (P : platform W) : Prop :=
  forall sh w, fst (P (c_glGetShaderiv sh GL_COMPILE_STATUS) w) = GL_FALSE.

(** The bytes that [fread] stored, in a trace. *)
Definition file_reads (t : list event) : list string :=
  flat_map (fun e =>
              match e with
              | Ev c r =>
                  match c as c0 return answer c0 -> list string with
                  | c_fread _ _ _ _ => fun a => [snd a]
                  | _ => fun _ => []
                  end r
              end) t.

(** The log that the failure report printed, in a trace. *)
Definition printed_logs (t : list event) : list (option string) :=
  flat_map (fun e =>
              match call_of e with
              | c_printf fmt [ArgStr _; ArgStr log] =>
                  if String.eqb fmt fmt_compile_error then [log] else []
              | _ => []
              end) t.

(** ** A machine on which every call succeeds

    It has no state.  [source] is the content of every file, [compiles]
    tells whether its compiler accepts a source, [log] is the log of the
    compiler. *)
Definition steady (source : string) (compiles : bool) (log : string)
  : platform unit :=
  fun c w =>
    match c as c0 return answer c0 * unit with
    | c_open _ _ => (3, w)
    | c_gbm_create_device _ => (0x1000, w)
    | c_eglGetPlatformDisplay _ _ _ => (0x2000, w)
    | c_eglInitialize _ => ((EGL_TRUE, (1, 5)), w)
    | c_eglQueryString _ _ =>
        (Some "EGL_KHR_create_context EGL_KHR_surfaceless_context", w)
    | c_eglChooseConfig _ _ _ => ((EGL_TRUE, (Some 0x2100, 1)), w)
    | c_eglBindAPI _ => (EGL_TRUE, w)
    | c_eglCreateContext _ _ _ _ => (0x3000, w)
    | c_eglMakeCurrent _ _ _ _ => (EGL_TRUE, w)
    | c_eglDestroyContext _ _ => (EGL_TRUE, w)
    | c_eglTerminate _ => (EGL_TRUE, w)
    | c_gbm_device_destroy _ => (tt, w)
    | c_printf _ _ => (0, w)
    | c_glGetString _ => (Some "steady", w)
    | c_fopen _ _ => (0x4000, w)
    | c_fseek _ _ _ => (0, w)
    | c_ftell _ => (strlen source, w)
    | c_rewind _ => (tt, w)
    | c_malloc _ => (0x5000, w)
    | c_fread _ _ nmemb _ => ((nmemb, source), w)
    | c_fclose _ => (0, w)
    | c_free _ => (tt, w)
    | c_glCreateShader _ => (1, w)
    | c_glGetError => (GL_NO_ERROR, w)
    | c_glShaderSource _ _ _ _ => (tt, w)
    | c_glCompileShader _ => (tt, w)
    | c_glGetShaderiv _ pname =>
        (if pname =? GL_COMPILE_STATUS
         then (if compiles then GL_TRUE else GL_FALSE)
         else strlen log + 1, w)
    | c_glGetShaderInfoLog _ _ _ => ((strlen log, log), w)
    | c_glCreateProgram => (2, w)
    | c_glAttachShader _ _ => (tt, w)
    | c_glLinkProgram _ => (tt, w)
    | c_glDeleteShader _ => (tt, w)
    | c_glUseProgram _ => (tt, w)
    | c_glDispatchCompute _ _ _ => (tt, w)
    | c_glDeleteProgram _ => (tt, w)
    | c_glGetProgramiv _ _ => (GL_TRUE, w)
    end.

Definition steady_start : state unit :=
  process_start junk_context junk_shader tt.

(** The calls of [context_print_info] when [verbose] is 0. *)
Definition report_call (c : call) : bool :=
  match c with
  | c_glGetString _ | c_printf _ _ => true
  | _ => false
  end.

(** The events of a complete [shader_run]. *)
Definition run_trace (prog : Z) : list event :=
  [Ev (c_glUseProgram prog) tt;
   Ev c_glGetError GL_NO_ERROR;
   Ev (c_glDispatchCompute 1 1 1) tt;
   Ev c_glGetError GL_NO_ERROR].

(** The events of [context_uninit] on a context with these handles. *)
Definition uninit_trace (dpy ectx dev destroyed terminated : Z)
  : list event :=
  [Ev (c_eglDestroyContext dpy ectx) destroyed;
   Ev (c_eglTerminate NULL) terminated;
   Ev (c_gbm_device_destroy dev) tt].

(** [checked F m]: with [verbose] at 0 (and it stays there), the computation
    [m] returns exactly when no event of its run satisfies [F]. *)
Definition checked {W A : Type} (F : event -> bool) (m : M W A) : Prop :=
  forall s, verbose s = 0 ->
    verbose (final (m s)) = 0 /\
    ((exists a, result (m s) = Returned a) <->
     existsb F (events (m s)) = false).

(** * Properties *)

Section Invariants.
Context {W : Type} (P : platform W).
Variable pv : Z -> Prop.
Variable Q : call -> bool.

Lemma keeps_Return {A} (a : A) : keeps (W:=W) pv Q (Return a).
Proof. intros s H. split; [exact H | reflexivity]. Qed.

Lemma keeps_assert (b : bool) : keeps (W:=W) pv Q (assert b).
Proof. intros s H. unfold assert. destruct b; split; auto. Qed.

Lemma keeps_fault {A} : keeps (W:=W) (A:=A) pv Q fault.
Proof. intros s H. split; [exact H | reflexivity]. Qed.

Lemma keeps_ctx_get {A} (f : context -> A) : keeps (W:=W) pv Q (ctx_get f).
Proof. intros s H. split; [exact H | reflexivity]. Qed.

Lemma keeps_ctx_set (upd : context -> context) :
  keeps (W:=W) pv Q (ctx_set upd).
Proof. intros s H. split; [exact H | reflexivity]. Qed.

Lemma keeps_shader_get : keeps (W:=W) pv Q shader_get.
Proof. intros s H. split; [exact H | reflexivity]. Qed.

Lemma keeps_shader_set (v : Z) : keeps (W:=W) pv Q (shader_set v).
Proof. intros s H. split; [exact H | reflexivity]. Qed.

Lemma keeps_ext (c : call) : Q c = true -> keeps pv Q (ext P c).
Proof.
  intros HQ s H. unfold ext, final, calls, events.
  destruct (P c (world s)) as [r w]. cbn. rewrite HQ. split; auto.
Qed.

Lemma keeps_bind {A B} (m : M W A) (k : A -> M W B) :
  keeps pv Q m -> (forall a, keeps pv Q (k a)) -> keeps pv Q (bind m k).
Proof.
  intros Hm Hk s H. unfold bind.
  destruct (Hm s H) as [H1 H2]. revert H1 H2.
  unfold final, calls, events.
  destruct (m s) as [[o s1] t1]. cbn. intros H1 H2.
  destruct o as [a | |]; cbn; auto.
  destruct (Hk a s1 H1) as [H3 H4]. revert H3 H4.
  unfold final, calls, events.
  destruct (k a s1) as [[o2 s2] t2]. cbn. intros H3 H4.
  split; [exact H3 |].
  rewrite map_app, forallb_app, H2, H4. reflexivity.
Qed.

(** Reading [verbose] gives a value that satisfies [pv]. *)
Lemma keeps_get_verbose {B} (k : Z -> M W B) :
  (forall v, pv v -> keeps pv Q (k v)) -> keeps pv Q (bind get_verbose k).
Proof.
  intros Hk s H. unfold bind, get_verbose.
  destruct (Hk (verbose s) H s H) as [H3 H4]. revert H3 H4.
  unfold final, calls, events.
  destruct (k (verbose s) s) as [[o2 s2] t2]. cbn. auto.
Qed.

Lemma keeps_when (c : bool) (body : M W unit) :
  keeps pv Q body -> keeps pv Q (when c body).
Proof. intros Hb. destruct c; cbn; [exact Hb | apply keeps_Return]. Qed.

Lemma keeps_store (buf index : Z) :
  keeps (W:=W) pv Q (store buf index).
Proof.
  unfold store.
  destruct (buf =? NULL); [apply keeps_fault |].
  destruct (index <? 0); [apply keeps_fault | apply keeps_Return].
Qed.

Lemma keeps_assert_no_gl_error :
  Q c_glGetError = true -> keeps pv Q (assert_no_gl_error P).
Proof.
  intros HQ. apply keeps_bind; [apply keeps_ext; exact HQ |].
  intros e. apply keeps_assert.
Qed.
End Invariants.

Create HintDb keeps.
#[export] Hint Resolve keeps_Return keeps_assert keeps_fault keeps_ctx_get
  keeps_ctx_set keeps_shader_get keeps_shader_set keeps_store : keeps.

(** One step of a proof of [keeps]: follow the shape of the computation. *)
Ltac keeps_step :=
  lazymatch goal with
  | |- keeps _ _ (bind get_verbose _) =>
      apply keeps_get_verbose; intros ? ?
  | |- keeps _ _ (bind _ _) => apply keeps_bind; [| intros ?]
  | |- keeps _ _ (ext ?P ?c) => apply (keeps_ext P _ _ c); reflexivity
  | |- keeps _ _ (assert_no_gl_error _) =>
      apply keeps_assert_no_gl_error; reflexivity
  | |- keeps _ _ (when _ _) => apply keeps_when
  | |- keeps _ _ (match ?x with _ => _ end) => destruct x
  | |- keeps _ _ _ => solve [auto with keeps]
  end.

(** The calls each operation can make. *)
Section Footprints.
Context {W : Type} (P : platform W).
Variable pv : Z -> Prop.

Lemma keeps_weaken {A} (Q Q' : call -> bool) (m : M W A) :
  (forall c, Q c = true -> Q' c = true) ->
  keeps pv Q m -> keeps pv Q' m.
Proof.
  intros HQ Hm s H. destruct (Hm s H) as [H1 H2]. split; [exact H1 |].
  rewrite forallb_forall in *. auto.
Qed.

Lemma context_init_calls : keeps pv init_call (context_init P).
Proof. unfold context_init. repeat keeps_step. Qed.

Lemma context_uninit_calls : keeps pv is_teardown (context_uninit P).
Proof. unfold context_uninit. repeat keeps_step. Qed.

Lemma context_print_info_calls : keeps pv is_query (context_print_info P).
Proof. unfold context_print_info. repeat keeps_step. Qed.

Lemma shader_load_calls (filename : string) :
  keeps pv load_call (shader_load P filename).
Proof. unfold shader_load. repeat keeps_step. Qed.

Lemma shader_run_calls : keeps pv run_call (shader_run P).
Proof. unfold shader_run. repeat keeps_step. Qed.

Lemma shader_unload_calls : keeps pv unload_call (shader_unload P).
Proof. unfold shader_unload. repeat keeps_step. Qed.
End Footprints.

(** With [verbose] at 0 the verbose-only lines are not printed. *)
Ltac quiet_step :=
  lazymatch goal with
  | |- keeps _ _ (bind get_verbose _) =>
      apply keeps_get_verbose; intros ? ->; cbn [when negb Z.eqb]
  | |- _ => keeps_step
  end.

Section Quiet.
Context {W : Type} (P : platform W).

Lemma context_print_info_quiet :
  keeps verbose_off not_verbose_only (context_print_info P).
Proof. unfold context_print_info, verbose_off. repeat quiet_step. Qed.

Lemma shader_load_quiet (filename : string) :
  keeps verbose_off not_verbose_only (shader_load P filename).
Proof. unfold shader_load, verbose_off. repeat quiet_step. Qed.

Lemma main_quiet (argc : Z) (argp : list string) :
  keeps verbose_off not_verbose_only (main P argc argp).
Proof.
  unfold main.
  apply keeps_bind; [| intros _].
  { apply keeps_weaken with (Q := init_call); [| apply context_init_calls].
    intros c; destruct c; cbn; intros; try discriminate; reflexivity. }
  apply keeps_bind; [apply context_print_info_quiet | intros _].
  apply keeps_bind; [apply shader_load_quiet | intros _].
  apply keeps_bind; [| intros _].
  { apply keeps_weaken with (Q := run_call); [| apply shader_run_calls].
    intros c; destruct c; cbn; intros; try discriminate; reflexivity. }
  apply keeps_bind; [| intros _].
  { apply keeps_weaken with (Q := unload_call); [| apply shader_unload_calls].
    intros c; destruct c; cbn; intros; try discriminate; reflexivity. }
  apply keeps_bind; [| intros _; apply keeps_Return].
  apply keeps_weaken with (Q := is_teardown); [| apply context_uninit_calls].
  intros c; destruct c; cbn; intros; try discriminate; reflexivity.
Qed.

(** No operation writes [verbose], whatever it holds. *)
Lemma main_keeps_verbose (argc : Z) (argp : list string) (v : Z) :
  keeps (eq v) (fun _ => true) (main P argc argp).
Proof.
  unfold main.
  apply keeps_bind; [| intros _].
  { eapply keeps_weaken; [| apply context_init_calls]. reflexivity. }
  apply keeps_bind; [| intros _].
  { eapply keeps_weaken; [| apply context_print_info_calls]. reflexivity. }
  apply keeps_bind; [| intros _].
  { eapply keeps_weaken; [| apply shader_load_calls]. reflexivity. }
  apply keeps_bind; [| intros _].
  { eapply keeps_weaken; [| apply shader_run_calls]. reflexivity. }
  apply keeps_bind; [| intros _].
  { eapply keeps_weaken; [| apply shader_unload_calls]. reflexivity. }
  apply keeps_bind; [| intros _; apply keeps_Return].
  eapply keeps_weaken; [| apply context_uninit_calls]. reflexivity.
Qed.

(** C10. [main] never looks at its arguments and nothing writes [verbose]:
    whatever the command line and the platform, [verbose] ends with the
    value it started with; started as the process starts (with [verbose]
    at its initialiser 0) it ends at 0, and the run, complete or cut short,
    prints none of the three verbose-only lines (EGL extensions, GL
    extensions, shader source). *)
Theorem verbose_stays_zero (argc : Z) (argp : list string)
    (c0 : context) (sh0 : shader) (w : W) :
  let run := main P argc argp (process_start c0 sh0 w) in
  (forall argc' argp', main P argc' argp' = main P argc argp) /\
  (forall s, verbose (final (main P argc argp s)) = verbose s) /\
  verbose (final run) = 0 /\
  forallb not_verbose_only (calls run) = true.
Proof.
  split; [reflexivity |].
  split.
  - intros s. symmetry.
    apply (main_keeps_verbose argc argp (verbose s) s). reflexivity.
  - apply (main_quiet argc argp (process_start c0 sh0 w)). reflexivity.
Qed.
End Quiet.

Lemma forallb_impl {A : Type} (Q Q' : A -> bool) (l : list A) :
  forallb Q l = true ->
  (forall a, Q a = true -> Q' a = true) ->
  forallb Q' l = true.
Proof.
  intros H HQ. rewrite forallb_forall in *. auto.
Qed.

Section Properties.
Context {W : Type} (P : platform W).

(** Symbolic execution: name the answer of the next external call, then
    split on the test that follows it. *)
Ltac split_answer :=
  repeat match goal with
         | r : (_ * _)%type |- _ => destruct r
         end.

Ltac next_call :=
  match goal with
  | |- context [P ?c ?w] =>
      let r := fresh "r" in
      let w' := fresh "w" in
      destruct (P c w) as [r w']; cbn in r; split_answer; cbn
  end.

Ltac next_test :=
  match goal with
  | |- context [if ?b then _ else _] =>
      let E := fresh "E" in destruct b eqn:E; cbn
  | |- context [match ?o with Some _ => _ | None => _ end] =>
      let E := fresh "E" in destruct o eqn:E; cbn
  end.

Ltac use_tests :=
  unfold EGL_FALSE, EGL_NO_DISPLAY, EGL_NO_CONTEXT, GL_NO_ERROR, GL_FALSE,
    NULL in *;
  repeat match goal with
         | E : negb _ = true |- _ => apply negb_true_iff in E
         | E : negb _ = false |- _ => apply negb_false_iff in E
         end;
  repeat match goal with
         | E : _ = true |- _ => rewrite E
         | E : _ = false |- _ => rewrite E
         end.

Local Opaque Z.eqb Z.gtb Z.ltb to_size_t strstr.

(** [context_init] performs the nine acquisition operations in the
    documented order, each at most once, and stops at the first answer it
    rejects: every answer before the last one was accepted; it returns
    exactly when all nine were performed and accepted, each handle having
    been passed on to the next operations and the version pair of
    [eglInitialize] stored in the context; otherwise the run ends right
    after the rejected answer (by the failed [assert], or by the null
    dereference when the extension string is missing). *)
Lemma context_init_stops_at_rejection (s : state W) :
  let run := context_init P s in
  map step_of (calls run) =
    map Some (firstn (List.length (events run)) init_order) /\
  forallb step_accepted (removelast (events run)) = true /\
  match result run with
  | Returned _ =>
      forallb step_accepted (events run) = true /\
      exists fd dev dpy init exts chosen bound ectx current,
        events run =
          init_trace fd dev dpy init exts chosen bound ectx current /\
        ctx (final run) =
          mk_context (fst (snd init)) (snd (snd init)) dev dpy ectx fd
  | Aborted =>
      exists e, last_event (events run) = Some e /\ step_rejected e = true
  | Faulted =>
      exists dpy name,
        last_event (events run) = Some (Ev (c_eglQueryString dpy name) None)
  end.
Proof.
  unfold context_init, bind, ext, assert, fault, ctx_get, ctx_set, Return,
    calls, events, result, final, step_accepted.
  cbn.
  repeat (next_call; repeat next_test).
  all: split; [reflexivity |].
  all: split; [cbn; use_tests; reflexivity |].
  all: lazymatch goal with
       | |- _ /\ _ =>
           split; [cbn; use_tests; reflexivity |];
           eexists _, _, _, (_, (_, _)), _, (_, (_, _)), _, _, _;
           split; reflexivity
       | |- @ex event _ =>
           eexists; split; [reflexivity | cbn; use_tests; reflexivity]
       | |- @ex Z _ => do 2 eexists; reflexivity
       end.
Qed.

Lemma accepted_or_empty (t : list event) :
  forallb step_accepted t = true ->
  forallb (fun e => step_ok e || empty_selection e) t = true.
Proof.
  intros H. rewrite forallb_forall in *. intros e He.
  specialize (H e He). unfold step_ok, step_failed, step_accepted in *.
  apply negb_true_iff in H. rewrite H. cbn.
  destruct (empty_selection e); reflexivity.
Qed.

(** [context_init] never reads [num_config]: reporting 0 there changes
    neither the calls it makes nor how it ends nor the context it builds. *)
Lemma num_config_never_read (s : state W) :
  result (context_init (zero_num_config P) s) = result (context_init P s) /\
  calls (context_init (zero_num_config P) s) = calls (context_init P s) /\
  ctx (final (context_init (zero_num_config P) s)) =
    ctx (final (context_init P s)).
Proof.
  unfold context_init, zero_num_config, bind, ext, assert, fault, ctx_get,
    ctx_set, Return, calls, events, result, final.
  cbn.
  repeat (next_call; repeat next_test).
  all: repeat split; reflexivity.
Qed.

(** C1. Whatever the context holds, [context_uninit] makes exactly three
    calls, in this order: [eglDestroyContext] on the display and context
    of the struct, [eglTerminate] on the null display (the field was
    cleared just before it is read), [gbm_device_destroy] on the device. *)
Theorem context_uninit_terminates_null_display (s : state W) :
  result (context_uninit P s) = Returned tt /\
  calls (context_uninit P s) =
    [c_eglDestroyContext (egl_disp (ctx s)) (egl_ctx (ctx s));
     c_eglTerminate NULL;
     c_gbm_device_destroy (gbm (ctx s))].
Proof.
  unfold context_uninit, bind, ext, ctx_get, ctx_set, Return, calls, events,
    result.
  cbn.
  repeat next_call.
  split; reflexivity.
Qed.

(** C2. After [context_uninit] the fields [gbm], [egl_disp] and [egl_ctx]
    are null, while [node_fd] still holds the descriptor that [open]
    returned (and the version pair is as it was); none of the three calls
    made is given the descriptor. *)
Theorem context_uninit_keeps_node_fd (s : state W) :
  let s' := final (context_uninit P s) in
  gbm (ctx s') = NULL /\
  egl_disp (ctx s') = NULL /\
  egl_ctx (ctx s') = NULL /\
  node_fd (ctx s') = node_fd (ctx s) /\
  egl_major (ctx s') = egl_major (ctx s) /\
  egl_minor (ctx s') = egl_minor (ctx s) /\
  forallb is_teardown (calls (context_uninit P s)) = true.
Proof.
  unfold context_uninit, bind, ext, ctx_get, ctx_set, Return, calls, events,
    final.
  cbn.
  repeat next_call.
  repeat split; reflexivity.
Qed.

(** C7. [context_print_info] returns, leaves every field of the context
    (and the shader object and [verbose]) as it found it, and calls nothing
    but the two string queries and [printf]: it prints the version pair of
    the struct, then vendor, renderer, version and shading-language
    version, each string being the answer of the query just before it; the
    two extension strings are queried and printed exactly when [verbose]
    is not 0. *)
Theorem context_print_info_read_only (s : state W) :
  let run := context_print_info P s in
  result run = Returned tt /\
  ctx (final run) = ctx s /\
  shdr (final run) = shdr s /\
  verbose (final run) = verbose s /\
  forallb is_query (calls run) = true /\
  exists n xe x1 x2 x3 x4 xg,
    events run =
      Ev (c_printf fmt_egl_version
                   [ArgInt (egl_major (ctx s)); ArgInt (egl_minor (ctx s))]) n
      :: (if verbose s =? 0 then []
          else egl_extensions_report (egl_disp (ctx s)) xe)
      ++ gl_string_report GL_VENDOR fmt_gl_vendor x1
      ++ gl_string_report GL_RENDERER fmt_gl_renderer x2
      ++ gl_string_report GL_VERSION fmt_gl_version x3
      ++ gl_string_report GL_SHADING_LANGUAGE_VERSION
                          fmt_gl_shading_language x4
      ++ (if verbose s =? 0 then []
          else gl_string_report GL_EXTENSIONS fmt_gl_extensions xg).
Proof.
  unfold context_print_info, when, bind, ext, ctx_get, get_verbose, Return,
    calls, events, result, final.
  cbn.
  next_call. destruct (verbose s =? 0) eqn:V; cbn.
  all: repeat (next_call; rewrite ?V; cbn).
  all: repeat (split; [reflexivity |]).
  - exists r, (None, 0), (r0, r1), (r2, r3), (r4, r5), (r6, r7), (None, 0).
    reflexivity.
  - exists r, (r0, r1), (r2, r3), (r4, r5), (r6, r7), (r8, r9), (r10, r11).
    reflexivity.
Qed.


Ltac same_run :=
  repeat match goal with
         | H : exists _, _ |- _ => destruct H
         | H : _ /\ _ |- _ => destruct H
         | H1 : ?x = _, H2 : ?x = _ |- _ =>
             rewrite H1 in H2; inversion H2; subst; clear H2
         end.

Ltac stopped :=
  split;
  [ eexists; split;
    [ repeat (eapply in_order_next; [eassumption |]);
      eapply in_order_stop; [eassumption | discriminate]
    | reflexivity ]
  | split; [discriminate | cbn [all_return]; intros; exfalso; same_run ] ].

(** [main] runs [context_init], [context_print_info], [shader_load],
    [shader_run], [shader_unload], [context_uninit] in this order, each
    one started only when the one before it has returned, and the first
    one that does not return ends the process with its outcome and with
    no further event.  The exit status is 0 exactly when all six return. *)
Lemma main_runs_in_order (argc : Z) (argp : list string) (s : state W) :
  let run := main P argc argp s in
  (exists o,
     in_order (operations P) s o (final run) (events run) /\
     result run = exit_of o) /\
  (result run = Returned 0 <-> all_return (operations P) s).
Proof.
  cbv zeta. unfold main, operations, bind, Return, result, final, events.
  destruct (context_init P s) as [[o1 s1] t1] eqn:E1.
  destruct o1 as [[] | |]; cbn [fst snd]; [| stopped ..].
  destruct (context_print_info P s1) as [[o2 s2] t2] eqn:E2.
  destruct o2 as [[] | |]; cbn [fst snd]; [| stopped ..].
  destruct (shader_load P "shader.cs" s2) as [[o3 s3] t3] eqn:E3.
  destruct o3 as [[] | |]; cbn [fst snd]; [| stopped ..].
  destruct (shader_run P s3) as [[o4 s4] t4] eqn:E4.
  destruct o4 as [[] | |]; cbn [fst snd]; [| stopped ..].
  destruct (shader_unload P s4) as [[o5 s5] t5] eqn:E5.
  destruct o5 as [[] | |]; cbn [fst snd]; [| stopped ..].
  destruct (context_uninit P s5) as [[o6 s6] t6] eqn:E6.
  destruct o6 as [[] | |]; cbn [fst snd]; [| stopped ..].
  split.
  - exists (Returned tt). split; [| reflexivity].
    repeat (eapply in_order_next; [eassumption |]).
    apply in_order_done.
  - split; [intros _ | reflexivity]. cbn [all_return].
    repeat (eexists; eexists; split; [eassumption |]). exact I.
Qed.
(** [context_print_info] returns and writes neither object. *)
Lemma context_print_info_keeps_memory (s : state W) :
  result (context_print_info P s) = Returned tt /\
  ctx (final (context_print_info P s)) = ctx s /\
  shdr (final (context_print_info P s)) = shdr s.
Proof.
  unfold context_print_info, when, bind, ext, ctx_get, get_verbose, Return,
    final, result.
  cbn.
  repeat (next_call; repeat next_test).
  all: repeat split; reflexivity.
Qed.

(** ** A compiler that rejects the source

    The platform refuses nothing that [context_init] asks for, the file
    and the allocator serve every request, the GL reports no error, and
    the compiler rejects whatever it is given. *)
Section Rejection.
Hypothesis accepted : never step_rejected P.
Hypothesis served : never io_failed P.
Hypothesis rejected : rejects_every_source P.

Ltac served_call :=
  match goal with
  | |- context [P ?c ?w] =>
      let r := fresh "r" in
      let w' := fresh "w" in
      let A := fresh "A" in
      let S := fresh "S" in
      lazymatch c with
      | c_glGetShaderiv ?sh GL_COMPILE_STATUS =>
          generalize (rejected sh w)
      | _ => generalize I
      end;
      generalize (accepted c w) (served c w);
      destruct (P c w) as [r w']; cbn in r; split_answer; cbn;
      intros A S;
      let R := fresh "R" in intros R
  end.

Ltac known :=
  unfold EGL_FALSE, EGL_NO_DISPLAY, EGL_NO_CONTEXT, GL_NO_ERROR, GL_FALSE,
    NULL in *;
  cbn [negb andb] in *;
  repeat match goal with
         | E : negb _ = true |- _ => apply negb_true_iff in E
         | E : negb _ = false |- _ => apply negb_false_iff in E
         | E : (?r =? 0) = true |- _ => apply Z.eqb_eq in E; subst r
         | R : ?r = 0 |- _ => subst r
         end.

Ltac impossible :=
  exfalso; known; rewrite ?Z.eqb_refl in *; congruence.

Lemma context_init_accepted (s : state W) :
  result (context_init P s) = Returned tt /\
  shdr (final (context_init P s)) = shdr s.
Proof.
  unfold context_init, bind, ext, assert, fault, ctx_get, ctx_set, Return,
    result, final.
  cbn.
  repeat (served_call; repeat next_test).
  all: first [split; reflexivity | impossible].
Qed.

Lemma shader_load_rejected (filename : string) (s : state W) :
  let run := shader_load P filename s in
  result run = Aborted /\
  shdr (final run) = shdr s /\
  exists f sought size src read closed shown sh n buf info printed,
    events run =
      read_trace filename f sought size src read closed
      ++ source_line (verbose s) (source_text size read) shown
      ++ compile_trace sh (source_text size read) GL_FALSE
      ++ log_report filename sh n buf info printed /\
    buf <> NULL /\
    (0 < n -> string_at buf n (snd info) = Some (snd info)).
Proof.
  unfold shader_load, assert_no_gl_error, when, store, bind, ext, assert,
    fault, get_verbose, shader_get, shader_set, Return, events, result,
    final.
  cbn.
  repeat (served_call; repeat next_test).
  all: try impossible.
  all: split; [reflexivity |]; split; [reflexivity |].
  all: known.
  all: repeat match goal with
              | u : unit |- _ => destruct u
              end.
  all: eexists _, _, _, _, (_, _), _, _, _, _, _, (_, _), _.
  all: unfold source_line, source_text.
  all: repeat match goal with
              | E : (verbose _ =? 0) = _ |- _ => rewrite E
              end.
  all: split; [reflexivity |].
  all: unfold string_at, NULL.
  all: match goal with
       | E : (?buf =? 0) = false |- ?buf <> 0 /\ _ =>
           split; [apply Z.eqb_neq; exact E |]; intros Hn; rewrite E
       end.
  all: match goal with
       | |- context [?n <? 1] =>
           destruct (n <? 1) eqn:L; [apply Z.ltb_lt in L; lia | reflexivity]
       end.
  Unshelve. all: exact 0.
Qed.
End Rejection.

End Properties.

(** * The simulated machine *)

(** The log that reaches the output there is the compiler's, and it is not
    empty. *)
Example compile_error_log_printed :
  last_event (removelast
    (events (main (sim sim_syntax_error) 1 command_line sim_start))) =
  Some (Ev (c_printf fmt_compile_error
              [ArgStr (Some "shader.cs");
               ArgStr (Some (sim_log sim_syntax_error))]) 0).
Proof. reflexivity. Qed.

(** On the good machine the whole sequence completes and the exit status
    is 0. *)
Example main_on_good_machine :
  result (main (sim sim_good) 1 command_line sim_start) = Returned 0.
Proof. reflexivity. Qed.

(** The teardown of that run: the display 0x2000 is never terminated, what
    is terminated (and refused) is the null display; the descriptor 3 is
    still in the context afterwards. *)
Example teardown_on_good_machine :
  let run := main (sim sim_good) 1 command_line sim_start in
  skipn 43 (events run) =
    [Ev (c_eglDestroyContext 0x2000 0x3000) EGL_TRUE;
     Ev (c_eglTerminate 0) EGL_FALSE;
     Ev (c_gbm_device_destroy 0x1000) tt] /\
  node_fd (ctx (final run)) = 3.
Proof. split; reflexivity. Qed.

(** C3. [context_init] performs the acquisition operations in the
    documented order, each at most once, and every failure that an answer
    reports stops the run at once; the one failure it does not detect is the
    selection that finds no configuration: before the last operation
    performed every step is a success or such an empty selection, and an
    aborted run ends with a failed step.  On the machine where no
    configuration matches, the sixth operation has failed
    ([eglChooseConfig] selected nothing) and two more operations follow it,
    [eglBindAPI] and [eglCreateContext] on the missing configuration. *)
Theorem context_init_misses_empty_selection :
  (forall (W : Type) (P : platform W) (s : state W),
     let run := context_init P s in
     map step_of (calls run) =
       map Some (firstn (List.length (events run)) init_order) /\
     forallb (fun e => step_ok e || empty_selection e)
             (removelast (events run)) = true /\
     (result run = Aborted ->
      exists e, last_event (events run) = Some e /\ step_failed e = true)) /\
  let run := context_init (sim sim_no_config) sim_start in
  (exists e,
     nth_error (events run) 5 = Some e /\
     call_of e = c_eglChooseConfig 0x2000 attr_list 1 /\
     step_failed e = true) /\
  skipn 6 (calls run) =
    [c_eglBindAPI EGL_OPENGL_ES_API;
     c_eglCreateContext 0x2000 None EGL_NO_CONTEXT ctx_attr].
Proof.
  split.
  - intros W P s.
    destruct (context_init_stops_at_rejection P s) as (H1 & H2 & H3).
    cbv zeta. split; [exact H1 |]. split; [exact (accepted_or_empty _ H2) |].
    intros HA. rewrite HA in H3. destruct H3 as (e & He & Hr).
    exists e. split; [exact He |].
    unfold step_failed. rewrite Hr. reflexivity.
  - cbv zeta. split.
    + eexists. split; [vm_compute; reflexivity |].
      split; vm_compute; reflexivity.
    + vm_compute. reflexivity.
Qed.

(** C4. [context_init] never reads the [num_config] that
    [eglChooseConfig] reports: on every platform, a report of 0 changes
    neither its calls nor its outcome.  On a machine where no configuration
    matches, [eglChooseConfig] answers [EGL_TRUE] with [num_config] 0 and
    stores nothing, and [context_init] does not stop there: it goes on to
    [eglBindAPI] and to [eglCreateContext], to which it passes the
    configuration that was never selected; the run is aborted only because
    that call is refused. *)
Theorem context_init_ignores_num_config :
  (forall (W : Type) (P : platform W) (s : state W),
     result (context_init (zero_num_config P) s) = result (context_init P s) /\
     calls (context_init (zero_num_config P) s) = calls (context_init P s)) /\
  let run := context_init (sim sim_no_config) sim_start in
  skipn 5 (events run) =
    [Ev (c_eglChooseConfig 0x2000 attr_list 1) (EGL_TRUE, (None, 0));
     Ev (c_eglBindAPI EGL_OPENGL_ES_API) EGL_TRUE;
     Ev (c_eglCreateContext 0x2000 None EGL_NO_CONTEXT ctx_attr)
        EGL_NO_CONTEXT] /\
  result run = Aborted.
Proof.
  split.
  - intros W P s. destruct (num_config_never_read P s) as (H1 & H2 & _).
    split; assumption.
  - cbv zeta. split; vm_compute; reflexivity.
Qed.

(** C6. On no platform does [shader_load] ask for the link status: after
    [glLinkProgram] it only checks [glGetError].  So on a machine whose
    linker rejects the program, [shader_load] returns as if the program
    were loaded: it has called [glLinkProgram] on the program now stored in
    the shader object, and the link status of that program is [GL_FALSE].
    The failure shows only later, when [shader_run] is refused the bind. *)
Theorem shader_load_accepts_rejected_link :
  (forall (W : Type) (P : platform W) (filename : string) (s : state W),
     forallb (fun c => negb (is_glGetProgramiv c))
             (calls (shader_load P filename s)) = true) /\
  let P := sim sim_link_rejected in
  let run := shader_load P "shader.cs" (sim_initialized sim_link_rejected) in
  let prog := program_id (shdr (final run)) in
  result run = Returned tt /\
  nth_error (calls run) 17 = Some (c_glLinkProgram prog) /\
  fst (P (c_glGetProgramiv prog GL_LINK_STATUS) (world (final run)))
    = GL_FALSE /\
  calls (shader_run P (final run)) = [c_glUseProgram prog; c_glGetError] /\
  result (shader_run P (final run)) = Aborted.
Proof.
  split.
  - intros W P filename s.
    apply (keeps_weaken (fun _ => True) load_call _
             (shader_load P filename)); [| apply shader_load_calls | exact I].
    intros c; destruct c; cbn; intros; try discriminate; reflexivity.
  - cbv zeta.
    repeat match goal with
           | |- _ /\ _ => split
           end; vm_compute; reflexivity.
Qed.




(** C9. [main] runs the six operations in order, each one started only
    when the one before it has returned, the first one that does not
    return ends the process with no further event, and the exit status is
    0 exactly when all six return.  But an operation returns also when one
    of its steps has failed unnoticed, and then the next operation is
    started: on the machine whose linker rejects the program, the link at
    call 35 leaves the link status of the program at [GL_FALSE],
    [shader_load] returns all the same, and [main] goes on to [shader_run],
    whose [glUseProgram] is the first call to fail visibly. *)
Theorem main_runs_after_rejected_link :
  (forall (W : Type) (P : platform W) (argc : Z) (argp : list string)
          (s : state W),
     let run := main P argc argp s in
     (exists o,
        in_order (operations P) s o (final run) (events run) /\
        result run = exit_of o) /\
     (result run = Returned 0 <-> all_return (operations P) s)) /\
  let P := sim sim_link_rejected in
  let run := main P 1 command_line sim_start in
  nth_error (calls run) 35 = Some (c_glLinkProgram 2) /\
  fst (P (c_glGetProgramiv 2 GL_LINK_STATUS)
         (world (sim_loaded sim_link_rejected))) = GL_FALSE /\
  skipn 36 (events run) =
    [Ev c_glGetError GL_NO_ERROR;
     Ev (c_glDeleteShader 1) tt;
     Ev (c_glUseProgram 2) tt;
     Ev c_glGetError GL_INVALID_OPERATION] /\
  result run = Aborted.
Proof.
  split.
  - intros W P argc argp s. exact (main_runs_in_order P argc argp s).
  - cbv zeta.
    repeat match goal with
           | |- _ /\ _ => split
           end; vm_compute; reflexivity.
Qed.

(** * Further properties of the operations *)

(** ** Strings *)

(** [strstr] finds a non-empty [needle] exactly when it occurs. *)
Lemma strstr_occurs (needle hay : string) :
  needle <> EmptyString ->
  found (strstr hay needle) = true <-> occurs needle hay.
Proof.
  intros Hne. unfold strstr, occurs. split.
  - destruct (index 0 needle hay) as [m |] eqn:E; [| discriminate].
    intros _. exists m. exact (index_correct1 _ _ _ _ E).
  - intros [m Hm].
    destruct (index 0 needle hay) as [k |] eqn:E; [reflexivity |].
    exfalso. exact (index_correct3 0 m needle hay E Hne (Nat.le_0_l m) Hm).
Qed.

Lemma c_str_nul_free (s : string) : nul_free (c_str s).
Proof.
  unfold nul_free. induction s as [| a s IH]; cbn; [constructor |].
  destruct (Ascii.eqb a zero) eqn:E; cbn; [constructor |].
  constructor; [| exact IH].
  intros ->. rewrite Ascii.eqb_refl in E. discriminate.
Qed.

(** A buffer is its C string followed by nothing, or by a NUL and the
    rest. *)
Lemma c_str_split (s : string) :
  exists rest,
    s = (c_str s ++ rest)%string /\
    (rest = EmptyString \/ exists r, rest = String zero r).
Proof.
  induction s as [| a s IH]; cbn.
  - exists EmptyString. split; [reflexivity | left; reflexivity].
  - destruct (Ascii.eqb a zero) eqn:E.
    + apply Ascii.eqb_eq in E. subst a.
      exists (String zero s). split; [reflexivity | right; eauto].
    + destruct IH as (rest & Hs & Hr). exists rest.
      split; [cbn; rewrite <- Hs; reflexivity | exact Hr].
Qed.

Section Operations.
Context {W : Type} (P : platform W).

Ltac answers :=
  repeat match goal with
         | r : (_ * _)%type |- _ => destruct r
         | u : unit |- _ => destruct u
         end.

Ltac exec_call :=
  match goal with
  | |- context [P ?c ?w] =>
      let r := fresh "r" in
      let w' := fresh "w" in
      destruct (P c w) as [r w']; cbn in r; answers; cbn
  end.

Ltac exec_test :=
  match goal with
  | |- context [if ?b then _ else _] =>
      let E := fresh "E" in destruct b eqn:E; cbn
  | |- context [match ?o with Some _ => _ | None => _ end] =>
      let E := fresh "E" in destruct o eqn:E; cbn
  end.

Ltac exec := repeat (exec_call; repeat exec_test).

Ltac tests :=
  unfold EGL_FALSE, EGL_NO_DISPLAY, EGL_NO_CONTEXT, GL_NO_ERROR, GL_FALSE,
    NULL in *;
  repeat match goal with
         | E : negb _ = true |- _ => apply negb_true_iff in E
         | E : negb _ = false |- _ => apply negb_false_iff in E
         end.

Ltac rewrite_tests :=
  repeat match goal with
         | E : _ = true |- _ => rewrite E
         | E : _ = false |- _ => rewrite E
         end.

Local Opaque Z.eqb Z.gtb Z.ltb Z.leb to_size_t strstr.

(** ** Who writes what *)

Lemma shader_load_keeps_ctx (filename : string) (s : state W) :
  ctx (final (shader_load P filename s)) = ctx s.
Proof.
  unfold shader_load, assert_no_gl_error, when, store, bind, ext, assert,
    get_verbose, shader_get, shader_set, Return, final.
  cbn. exec. all: reflexivity.
Qed.

Lemma shader_run_keeps_memory (s : state W) :
  ctx (final (shader_run P s)) = ctx s /\
  shdr (final (shader_run P s)) = shdr s.
Proof.
  unfold shader_run, assert_no_gl_error, bind, ext, assert, shader_get,
    Return, final.
  cbn. exec. all: split; reflexivity.
Qed.

Lemma shader_unload_trace (s : state W) :
  result (shader_unload P s) = Returned tt /\
  events (shader_unload P s) = [Ev (c_glDeleteProgram (program_id (shdr s))) tt] /\
  ctx (final (shader_unload P s)) = ctx s /\
  shdr (final (shader_unload P s)) = shdr s.
Proof.
  unfold shader_unload, bind, ext, shader_get, Return, final, events, result.
  cbn. exec. repeat split; reflexivity.
Qed.

Lemma context_init_keeps_shader (s : state W) :
  shdr (final (context_init P s)) = shdr s.
Proof.
  unfold context_init, bind, ext, assert, fault, ctx_get, ctx_set, Return,
    final.
  cbn. exec. all: reflexivity.
Qed.

Lemma context_uninit_trace (s : state W) :
  result (context_uninit P s) = Returned tt /\
  calls (context_uninit P s) =
    [c_eglDestroyContext (egl_disp (ctx s)) (egl_ctx (ctx s));
     c_eglTerminate NULL;
     c_gbm_device_destroy (gbm (ctx s))] /\
  ctx (final (context_uninit P s)) =
    mk_context (egl_major (ctx s)) (egl_minor (ctx s)) NULL NULL NULL
               (node_fd (ctx s)) /\
  shdr (final (context_uninit P s)) = shdr s.
Proof.
  unfold context_uninit, bind, ext, ctx_get, ctx_set, Return, calls, events,
    result, final.
  cbn. exec. repeat split; reflexivity.
Qed.

(** X1. The shader operations never write the context, the context
    operations never write the shader object, and [shader_run] and
    [shader_unload] write neither: only [context_init] and [context_uninit]
    change the context, only [shader_load] changes the shader object. *)
Theorem operations_write_their_own_object (filename : string) (s : state W) :
  ctx (final (shader_load P filename s)) = ctx s /\
  ctx (final (shader_run P s)) = ctx s /\
  ctx (final (shader_unload P s)) = ctx s /\
  shdr (final (context_init P s)) = shdr s /\
  shdr (final (context_print_info P s)) = shdr s /\
  shdr (final (context_uninit P s)) = shdr s /\
  shdr (final (shader_run P s)) = shdr s /\
  shdr (final (shader_unload P s)) = shdr s.
Proof.
  pose proof (shader_run_keeps_memory s) as [R1 R2].
  pose proof (shader_unload_trace s) as (_ & _ & U1 & U2).
  pose proof (context_print_info_keeps_memory P s) as (_ & _ & I2).
  pose proof (context_uninit_trace s) as (_ & _ & _ & T2).
  repeat split; auto using shader_load_keeps_ctx, context_init_keeps_shader.
Qed.

(** ** [shader_load] *)

(** How [shader_load] ends, from the answers it goes by. *)
Lemma shader_load_outcome (filename : string) (s : state W) :
  let run := shader_load P filename s in
  (result run = Returned tt <->
   existsb load_answer_failed (events run) = false) /\
  (result run = Returned tt ->
   exists sh, last_event (events run) = Some (Ev (c_glDeleteShader sh) tt)) /\
  (result run = Aborted ->
   (exists e, last_event (events run) = Some e /\ load_failed e = true) \/
   (exists pre sh n buf info printed,
      events run =
        pre ++ compile_failure_report filename sh n buf info printed)) /\
  (result run = Faulted ->
   exists f closed,
     last_event (events run) = Some (Ev (c_fclose f) closed) /\
     existsb storage_failed (events run) = true).
Proof.
  unfold shader_load, assert_no_gl_error, when, store, bind, ext, assert,
    fault, get_verbose, shader_get, shader_set, Return, events, result.
  cbn. exec.
  all: unfold load_answer_failed; cbn; tests; rewrite_tests;
    rewrite ?Z.eqb_refl;
    change (GL_INFO_LOG_LENGTH =? GL_COMPILE_STATUS) with false; cbn.
  all: split; [split; intros H; first [reflexivity | discriminate H] |].
  all: split;
    [intros H; first [discriminate H | eexists; reflexivity] |].
  all: split; [| intros H; first
                   [ discriminate H
                   | eexists _, _; split; [reflexivity |];
                     cbn; rewrite_tests; cbn;
                     rewrite ?orb_true_r; reflexivity ]].
  all: intros H; try discriminate H.
  all: first
    [ left; eexists; split; [reflexivity |];
      cbn; tests; rewrite_tests; rewrite ?Z.eqb_refl; reflexivity
    | right;
      repeat match goal with
             | E : (_ =? 0) = true |- _ => apply Z.eqb_eq in E; subst
             end;
      match goal with
      | |- context [?l = _ ++ _] => exists (firstn (List.length l - 6) l)
      end;
      unfold compile_failure_report, GL_FALSE; cbn;
      eexists _, _, _, (_, _), _; reflexivity ].
Qed.

(** What [shader_load] has done when it returns. *)
Lemma shader_load_returns (filename : string) (s : state W) :
  let run := shader_load P filename s in
  result run = Returned tt ->
  exists f sought size src read closed printed sh status prog,
    events run =
      read_trace filename f sought size src read closed
      ++ source_line (verbose s) (source_text size read) printed
      ++ compile_trace sh (source_text size read) status
      ++ link_trace sh prog /\
    f <> NULL /\
    0 <= size /\
    src <> NULL /\
    status <> GL_FALSE /\
    shdr (final run) = mk_shader prog /\
    ctx (final run) = ctx s /\
    verbose (final run) = verbose s.
Proof.
  unfold shader_load, assert_no_gl_error, when, store, bind, ext, assert,
    fault, get_verbose, shader_get, shader_set, Return, events, result,
    final.
  cbn. exec.
  all: intros H; try discriminate H.
  all: tests.
  all: repeat match goal with
              | E : (_ =? 0) = true |- _ => apply Z.eqb_eq in E; subst
              | E : (_ =? 0) = false |- _ => apply Z.eqb_neq in E
              | E : (_ <? 0) = false |- _ => apply Z.ltb_ge in E
              end.
  all: eexists _, _, _, _, (_, _), _, _, _, _, _.
  all: unfold source_line, source_text, GL_FALSE, NULL.
  all: repeat match goal with
              | E : verbose _ <> 0 |- _ => apply Z.eqb_neq in E; rewrite E
              | E : verbose _ = 0 |- _ => rewrite E, Z.eqb_refl
              end.
  all: split; [reflexivity |].
  all: repeat split; auto.
  Unshelve. all: exact 0.
Qed.


(** X3. When [shader_load] returns, the size that [ftell] reported is not
    negative, [malloc] gave a buffer, and its events are: the file read
    (size by seek and tell, [size + 1] bytes allocated, [size] bytes read,
    stream closed), in verbose mode the line with the source, the
    compilation of that same text in a shader that the compiler did not
    reject, and the link of a new program to which that shader is attached,
    after which the shader is deleted.  The shader object then holds the
    new program, the context is as before.  Nothing is freed: the buffer of
    the source stays allocated. *)
Theorem shader_load_success_trace (filename : string) (s : state W) :
  let run := shader_load P filename s in
  result run = Returned tt ->
  exists f sought size src read closed printed sh status prog,
    events run =
      read_trace filename f sought size src read closed
      ++ source_line (verbose s) (source_text size read) printed
      ++ compile_trace sh (source_text size read) status
      ++ link_trace sh prog /\
    f <> NULL /\
    0 <= size /\
    src <> NULL /\
    status <> GL_FALSE /\
    shdr (final run) = mk_shader prog /\
    ctx (final run) = ctx s /\
    verbose (final run) = verbose s.
Proof. cbv zeta. apply shader_load_returns. Qed.

(** X4. When [fopen] finds no file, [shader_load] aborts after that one
    call: no GL call is made and the memory of the program is as before. *)
Theorem shader_load_missing_file (filename : string) (s : state W) :
  let run := shader_load P filename s in
  fst (P (c_fopen filename "rb") (world s)) = NULL ->
  result run = Aborted /\
  events run = [Ev (c_fopen filename "rb") NULL] /\
  ctx (final run) = ctx s /\
  shdr (final run) = shdr s /\
  verbose (final run) = verbose s.
Proof.
  unfold shader_load, assert_no_gl_error, when, store, bind, ext, assert,
    get_verbose, shader_get, shader_set, Return, events, result, final.
  cbn.
  destruct (P (c_fopen filename "rb") (world s)) as [f w]. cbn in f |- *.
  intros ->. unfold NULL. rewrite Z.eqb_refl. cbn.
  repeat split; reflexivity.
Qed.

(** X7. What [shader_load] hands to the compiler is the C string at the
    start of the buffer: it submits at most one source (exactly one when it
    returns), as a single string, and then [ftell] has reported one size,
    which is not negative, [fread] has filled the buffer once, and the
    first [size] bytes of the buffer are the submitted text followed by
    nothing or by a NUL character and the rest; the text itself contains no
    NUL.  So a file with a NUL byte is compiled up to that byte, and an
    empty file as the empty source. *)
Theorem submitted_source_is_c_string (filename : string) (s : state W) :
  let run := shader_load P filename s in
  (List.length (submitted_sources (events run)) <= 1)%nat /\
  (result run = Returned tt ->
   List.length (submitted_sources (events run)) = 1%nat) /\
  Forall (fun strings =>
            exists text size bytes rest,
              strings = [text] /\
              file_sizes (events run) = [size] /\
              file_reads (events run) = [bytes] /\
              0 <= size /\
              substring 0 (Z.to_nat size) bytes = (text ++ rest)%string /\
              nul_free text /\
              (rest = EmptyString \/ exists r, rest = String zero r))
         (submitted_sources (events run)).
Proof.
  unfold shader_load, assert_no_gl_error, when, store, bind, ext, assert,
    fault, get_verbose, shader_get, shader_set, Return, events, result.
  cbn. exec.
  all: split; [cbn; lia |].
  all: split; [intros H; first [reflexivity | discriminate H] |].
  all: repeat constructor.
  all: match goal with
       | |- context [c_str ?b] =>
           destruct (c_str_split b) as (rest & Hs & Hr)
       end.
  all: eexists _, _, _, rest.
  all: split; [reflexivity |]; split; [reflexivity |];
    split; [reflexivity |].
  all: split; [apply Z.ltb_ge; assumption |].
  all: split; [exact Hs |]; split; [apply c_str_nul_free | exact Hr].
Qed.

(** ** [context_init] *)

(** X8. The extension check of [context_init] is a substring test: once
    [eglQueryString] has answered a string, the run goes on to
    [eglChooseConfig] exactly when each of the two names occurs somewhere
    in that string (be it inside a longer name), and is aborted
    otherwise. *)
Theorem extension_check_is_substring_test (s : state W) (dpy : Z)
    (exts : string) :
  let run := context_init P s in
  nth_error (events run) 4
    = Some (Ev (c_eglQueryString dpy EGL_EXTENSIONS) (Some exts)) ->
  (nth_error (calls run) 5 = Some (c_eglChooseConfig dpy attr_list 1) <->
   occurs "EGL_KHR_create_context" exts /\
   occurs "EGL_KHR_surfaceless_context" exts) /\
  (nth_error (calls run) 5 = None -> result run = Aborted).
Proof.
  unfold context_init, bind, ext, assert, fault, ctx_get, ctx_set, Return,
    calls, events, result.
  cbn. exec.
  all: intros H; try discriminate H.
  all: pose proof (f_equal (option_map queried_string) H) as Hq; cbn in Hq.
  all: try discriminate Hq.
  all: pose proof (f_equal (option_map call_of) H) as Hc; cbn in Hc.
  all: injection Hq as Hq; injection Hc as Hc; subst; clear H.
  all: rewrite <- !strstr_occurs by discriminate.
  all: rewrite_tests.
  all: intuition (try discriminate; try reflexivity).
Qed.

(** How [context_init] ends, and what it has done when it returns. *)
Lemma context_init_outcome (s : state W) :
  let run := context_init P s in
  (result run = Returned tt <-> existsb step_rejected (events run) = false) /\
  (result run = Returned tt ->
   exists fd dev dpy init exts chosen bound ectx current,
     events run = init_trace fd dev dpy init exts chosen bound ectx current /\
     ctx (final run) =
       mk_context (fst (snd init)) (snd (snd init)) dev dpy ectx fd).
Proof.
  unfold context_init, bind, ext, assert, fault, ctx_get, ctx_set, Return,
    events, result, final.
  cbn. exec.
  all: tests; cbn; rewrite_tests; cbn.
  all: split; [split; intros H; first [reflexivity | discriminate H] |].
  all: intros H; try discriminate H.
  eexists _, _, _, (_, (_, _)), _, (_, (_, _)), _, _, _.
  split; reflexivity.
Qed.

(** ** [shader_run] *)

(** How [shader_run] ends, and what it has done when it returns. *)
Lemma shader_run_outcome (s : state W) :
  let run := shader_run P s in
  (result run = Returned tt <-> existsb load_failed (events run) = false) /\
  (result run = Returned tt ->
   events run = run_trace (program_id (shdr s))).
Proof.
  unfold shader_run, assert_no_gl_error, bind, ext, assert, shader_get,
    Return, events, result.
  cbn. exec.
  all: tests; cbn; rewrite_tests; cbn.
  all: split; [split; intros H; first [reflexivity | discriminate H] |].
  all: intros H; try discriminate H.
  repeat match goal with
         | E : (_ =? 0) = true |- _ => apply Z.eqb_eq in E; subst
         end.
  reflexivity.
Qed.

(** X5. When the error query after [glUseProgram] finds an error,
    [shader_run] aborts having made these two calls only: nothing is
    dispatched with a program that could not be bound. *)
Theorem shader_run_refused_bind (s : state W) (e : Z) :
  let run := shader_run P s in
  nth_error (events run) 1 = Some (Ev c_glGetError e) ->
  e <> GL_NO_ERROR ->
  result run = Aborted /\
  calls run = [c_glUseProgram (program_id (shdr s)); c_glGetError] /\
  existsb is_dispatch (calls run) = false.
Proof.
  unfold shader_run, assert_no_gl_error, bind, ext, assert, shader_get,
    Return, events, calls, result.
  cbn. exec.
  all: intros H Hne.
  all: try (repeat split; reflexivity).
  all: exfalso; apply Hne;
    apply (f_equal (option_map error_code)) in H; cbn in H;
    injection H as H; subst; apply Z.eqb_eq; assumption.
Qed.

(** ** [context_uninit] *)

Lemma context_uninit_events (s : state W) :
  exists destroyed terminated,
    events (context_uninit P s) =
      uninit_trace (egl_disp (ctx s)) (egl_ctx (ctx s)) (gbm (ctx s))
                   destroyed terminated.
Proof.
  unfold context_uninit, bind, ext, ctx_get, ctx_set, Return, events.
  cbn. exec. eexists _, _. reflexivity.
Qed.

(** X6. [context_uninit] is not guarded against a second call: run again
    on the context it has just cleared, it passes null handles to all
    three teardown calls, and leaves the context as the first call left
    it. *)
Theorem context_uninit_twice (s : state W) :
  let once := final (context_uninit P s) in
  calls (context_uninit P once) =
    [c_eglDestroyContext NULL NULL; c_eglTerminate NULL;
     c_gbm_device_destroy NULL] /\
  ctx (final (context_uninit P once)) = ctx once.
Proof.
  cbv zeta.
  destruct (context_uninit_trace s) as (_ & _ & C1 & _).
  destruct (context_uninit_trace (final (context_uninit P s)))
    as (_ & T2 & C2 & _).
  rewrite T2, C2, C1. split; reflexivity.
Qed.

(** ** Whole runs *)

Lemma existsb_on_footprint (Q : call -> bool) (F G : event -> bool)
    (t : list event) :
  forallb Q (map call_of t) = true ->
  (forall e, Q (call_of e) = true -> F e = G e) ->
  existsb F t = existsb G t.
Proof.
  intros HQ HFG. induction t as [| e t IH]; cbn in *; [reflexivity |].
  apply andb_true_iff in HQ. destruct HQ as [H1 H2].
  rewrite (HFG e H1), (IH H2). reflexivity.
Qed.

Lemma absent_from_footprint (Q R : call -> bool) (l : list call) :
  forallb Q l = true ->
  (forall c, Q c = true -> R c = false) ->
  existsb R l = false.
Proof.
  intros HQ HR. induction l as [| c l IH]; cbn in *; [reflexivity |].
  apply andb_true_iff in HQ. destruct HQ as [H1 H2].
  rewrite (HR c H1), (IH H2). reflexivity.
Qed.

Lemma returned_unit (o : outcome unit) :
  (exists a, o = Returned a) <-> o = Returned tt.
Proof.
  split; [intros [[] H]; exact H | intros H; exists tt; exact H].
Qed.

Lemma checked_Return {A} (F : event -> bool) (a : A) :
  checked (W:=W) F (Return a).
Proof.
  intros s V. split; [exact V |]. cbn. split; [reflexivity | eauto].
Qed.

Lemma checked_bind {A B} (F : event -> bool) (m : M W A) (k : A -> M W B) :
  checked F m -> (forall a, checked F (k a)) -> checked F (bind m k).
Proof.
  intros Hm Hk s V. unfold bind.
  destruct (Hm s V) as [V1 I1]. revert V1 I1.
  unfold final, result, events.
  destruct (m s) as [[o s1] t1]. cbn. intros V1 I1.
  destruct o as [a | |]; cbn.
  - destruct (Hk a s1 V1) as [V2 I2]. revert V2 I2.
    unfold final, result, events.
    destruct (k a s1) as [[o2 s2] t2]. cbn. intros V2 I2.
    split; [exact V2 |].
    rewrite existsb_app, (proj1 I1 (ex_intro _ a eq_refl)). exact I2.
  - split; [exact V1 |]. split.
    + intros [b Hb]. discriminate Hb.
    + intros Hf. apply I1 in Hf. destruct Hf as [a Ha]. discriminate Ha.
  - split; [exact V1 |]. split.
    + intros [b Hb]. discriminate Hb.
    + intros Hf. apply I1 in Hf. destruct Hf as [a Ha]. discriminate Ha.
Qed.

Ltac by_call :=
  let e := fresh "e" in
  let c := fresh "c" in
  let r := fresh "r" in
  intros e; destruct e as [c r]; destruct c;
  unfold answer_failed, load_answer_failed; cbn;
  intros; try discriminate; rewrite ?orb_false_r; reflexivity.

Lemma checked_context_init : checked answer_failed (context_init P).
Proof.
  intros s V. split.
  - exact (proj1 (context_init_calls P verbose_off s V)).
  - rewrite returned_unit.
    rewrite (existsb_on_footprint init_call answer_failed step_rejected).
    + exact (proj1 (context_init_outcome s)).
    + exact (proj2 (context_init_calls P verbose_off s V)).
    + by_call.
Qed.

Lemma context_print_info_report :
  keeps verbose_off report_call (context_print_info P).
Proof. unfold context_print_info, verbose_off. repeat quiet_step. Qed.

Lemma checked_context_print_info :
  checked answer_failed (context_print_info P).
Proof.
  intros s V. destruct (context_print_info_report s V) as [V1 F1].
  split; [exact V1 |].
  rewrite (existsb_on_footprint report_call answer_failed (fun _ => false));
    [| exact F1 | by_call].
  split; [intros _ | intros _; exists tt;
                     exact (proj1 (context_print_info_keeps_memory P s))].
  clear. induction (events (context_print_info P s)); auto.
Qed.

Lemma checked_shader_load (filename : string) :
  checked answer_failed (shader_load P filename).
Proof.
  intros s V. split.
  - exact (proj1 (shader_load_calls P verbose_off filename s V)).
  - rewrite returned_unit.
    rewrite (existsb_on_footprint load_call answer_failed
               load_answer_failed).
    + exact (proj1 (shader_load_outcome filename s)).
    + exact (proj2 (shader_load_calls P verbose_off filename s V)).
    + by_call.
Qed.

Lemma checked_shader_run : checked answer_failed (shader_run P).
Proof.
  intros s V. split.
  - exact (proj1 (shader_run_calls P verbose_off s V)).
  - rewrite returned_unit.
    rewrite (existsb_on_footprint run_call answer_failed load_failed).
    + exact (proj1 (shader_run_outcome s)).
    + exact (proj2 (shader_run_calls P verbose_off s V)).
    + by_call.
Qed.

Lemma checked_shader_unload : checked answer_failed (shader_unload P).
Proof.
  intros s V. destruct (shader_unload_trace s) as (R & T & _).
  split.
  - exact (proj1 (shader_unload_calls P verbose_off s V)).
  - rewrite R, T. cbn. split; [reflexivity | eauto].
Qed.

Lemma checked_context_uninit : checked answer_failed (context_uninit P).
Proof.
  intros s V. destruct (context_uninit_trace s) as (R & _).
  destruct (context_uninit_events s) as (r1 & r2 & T).
  split.
  - exact (proj1 (context_uninit_calls P verbose_off s V)).
  - rewrite R, T. cbn. split; [reflexivity | eauto].
Qed.

Lemma main_status (argc : Z) (argp : list string) (s : state W) (z : Z) :
  result (main P argc argp s) = Returned z -> z = 0.
Proof.
  unfold main, bind, Return, result.
  repeat match goal with
         | |- context [match ?f ?st with _ => _ end] =>
             destruct (f st) as [[[[] | |] ?] ?]; cbn [fst snd];
             try discriminate
         end.
  intros H. injection H as H. symmetry. exact H.
Qed.

(** With [verbose] at 0 the report has nine events. *)
Lemma context_print_info_length (s : state W) :
  verbose s = 0 ->
  List.length (events (context_print_info P s)) = 9%nat.
Proof.
  unfold context_print_info, when, bind, ext, ctx_get, get_verbose, Return,
    events.
  cbn. intros V. exec.
  all: first [ reflexivity
             | congruence
             | match goal with
               | E : _ = _ |- _ =>
                   rewrite V in E; vm_compute in E; discriminate E
               end ].
Qed.

(** A run of [main] that exits with status 0 has made the 46 calls of the
    six operations. *)
Lemma complete_run_length (argc : Z) (argp : list string) (s : state W) :
  verbose s = 0 ->
  result (main P argc argp s) = Returned 0 ->
  List.length (events (main P argc argp s)) = 46%nat.
Proof.
  intros V. unfold main, bind, Return, result, events.
  (* context_init *)
  pose proof (proj2 (context_init_outcome s)) as H1.
  pose proof (proj1 (context_init_calls P verbose_off s V)) as V1.
  unfold result, final, events, verbose_off in H1, V1.
  destruct (context_init P s) as [[o1 s1] t1]. cbn [fst snd] in *.
  destruct o1 as [[] | |]; cbn [fst snd]; try (intros X; discriminate X).
  destruct (H1 eq_refl)
    as (fd & dev & dpy & init & exts & chosen & bound & ectx & current
        & T1 & _).
  clear H1.
  (* context_print_info *)
  pose proof (context_print_info_length s1 V1) as T2.
  pose proof (proj1 (context_print_info_calls P verbose_off s1 V1)) as V2.
  unfold final, events, verbose_off in T2, V2.
  destruct (context_print_info P s1) as [[o2 s2] t2]. cbn [fst snd] in *.
  destruct o2 as [[] | |]; cbn [fst snd]; try (intros X; discriminate X).
  (* shader_load *)
  pose proof (shader_load_returns "shader.cs" s2) as H3.
  unfold result, final, events in H3.
  destruct (shader_load P "shader.cs" s2) as [[o3 s3] t3].
  cbn [fst snd] in *.
  destruct o3 as [[] | |]; cbn [fst snd]; try (intros X; discriminate X).
  destruct (H3 eq_refl)
    as (f & sought & size & src & read & closed & printed & sh & status
        & prog & T3 & _).
  clear H3. rewrite V2 in T3.
  (* shader_run *)
  pose proof (proj2 (shader_run_outcome s3)) as H4.
  unfold result, events in H4.
  destruct (shader_run P s3) as [[o4 s4] t4]. cbn [fst snd] in *.
  destruct o4 as [[] | |]; cbn [fst snd]; try (intros X; discriminate X).
  specialize (H4 eq_refl).
  (* shader_unload *)
  pose proof (shader_unload_trace s4) as (R5 & T5 & _).
  unfold result, events in R5, T5.
  destruct (shader_unload P s4) as [[o5 s5] t5]. cbn [fst snd] in *.
  subst o5.
  (* context_uninit *)
  pose proof (context_uninit_trace s5) as (R6 & _).
  pose proof (context_uninit_events s5) as (destroyed & terminated & T6).
  unfold result, events in R6, T6.
  destruct (context_uninit P s5) as [[o6 s6] t6]. cbn [fst snd] in *.
  subst o6. cbn [fst snd]. intros _.
  subst t1 t3 t4 t5 t6.
  rewrite !length_app, T2. reflexivity.
Qed.

(** X9. Started as the process starts, [main] exits with status 0 exactly
    when no answer that the program goes by reports a failure: a descriptor
    or handle that is not positive or null, an [EGL_FALSE], an extension
    string that is missing or lacks one of the two names, an [fopen]
    without a stream, a file size that is negative, a [malloc] without a
    buffer, a GL error at one of the seven error queries, a rejected
    compilation.  No other answer of the platform has any influence on the
    status.  A run that exits with status 0 has made the 46 calls of the
    six operations. *)
Theorem exit_zero_iff_no_failure (argc : Z) (argp : list string)
    (c0 : context) (sh0 : shader) (w : W) :
  let run := main P argc argp (process_start c0 sh0 w) in
  (result run = Returned 0 <-> existsb answer_failed (events run) = false) /\
  (result run = Returned 0 -> List.length (events run) = 46%nat).
Proof.
  cbv zeta.
  split; [| apply complete_run_length; reflexivity].
  assert (C : checked answer_failed (main P argc argp)).
  { unfold main.
    apply checked_bind; [apply checked_context_init | intros _].
    apply checked_bind; [apply checked_context_print_info | intros _].
    apply checked_bind; [apply checked_shader_load | intros _].
    apply checked_bind; [apply checked_shader_run | intros _].
    apply checked_bind; [apply checked_shader_unload | intros _].
    apply checked_bind; [apply checked_context_uninit | intros _].
    apply checked_Return. }
  destruct (C (process_start c0 sh0 w) eq_refl) as [_ I].
  rewrite <- I. split.
  - intros H. exists 0. exact H.
  - intros [z H]. rewrite H. f_equal. exact (main_status _ _ _ _ H).
Qed.

Ltac call_cases :=
  let c := fresh "c" in
  intros c; destruct c; cbn; intros; try discriminate; reflexivity.

Ltac no_cleanup :=
  rewrite ?map_app, ?existsb_app;
  repeat match goal with
         | N : existsb _ _ = false |- _ => rewrite N
         end;
  cbn; split; split; intros X; discriminate X.

(** X10. Nothing is released on a failure: [glDeleteProgram] and the
    three teardown calls of the context are made in exactly those runs of
    [main] that exit with status 0.  A run that is cut short leaves the
    program object, the EGL context and the GBM device as they are. *)
Theorem cleanup_iff_exit_zero (argc : Z) (argp : list string) (s : state W) :
  let run := main P argc argp s in
  (existsb is_teardown (calls run) = true <-> result run = Returned 0) /\
  (existsb unload_call (calls run) = true <-> result run = Returned 0).
Proof.
  cbv zeta. unfold main, bind, Return, result, calls, events.
  pose proof (absent_from_footprint init_call is_teardown _
    (proj2 (context_init_calls P (fun _ => True) s I)) ltac:(call_cases))
    as N1.
  pose proof (absent_from_footprint init_call unload_call _
    (proj2 (context_init_calls P (fun _ => True) s I)) ltac:(call_cases))
    as U1.
  unfold calls, events in N1, U1.
  destruct (context_init P s) as [[o1 s1] t1]. cbn [fst snd] in *.
  destruct o1 as [[] | |]; cbn [fst snd]; [| no_cleanup ..].
  pose proof (absent_from_footprint is_query is_teardown _
    (proj2 (context_print_info_calls P (fun _ => True) s1 I))
    ltac:(call_cases)) as N2.
  pose proof (absent_from_footprint is_query unload_call _
    (proj2 (context_print_info_calls P (fun _ => True) s1 I))
    ltac:(call_cases)) as U2.
  unfold calls, events in N2, U2.
  destruct (context_print_info P s1) as [[o2 s2] t2]. cbn [fst snd] in *.
  destruct o2 as [[] | |]; cbn [fst snd]; [| no_cleanup ..].
  pose proof (absent_from_footprint load_call is_teardown _
    (proj2 (shader_load_calls P (fun _ => True) "shader.cs" s2 I))
    ltac:(call_cases)) as N3.
  pose proof (absent_from_footprint load_call unload_call _
    (proj2 (shader_load_calls P (fun _ => True) "shader.cs" s2 I))
    ltac:(call_cases)) as U3.
  unfold calls, events in N3, U3.
  destruct (shader_load P "shader.cs" s2) as [[o3 s3] t3].
  cbn [fst snd] in *.
  destruct o3 as [[] | |]; cbn [fst snd]; [| no_cleanup ..].
  pose proof (absent_from_footprint run_call is_teardown _
    (proj2 (shader_run_calls P (fun _ => True) s3 I)) ltac:(call_cases))
    as N4.
  pose proof (absent_from_footprint run_call unload_call _
    (proj2 (shader_run_calls P (fun _ => True) s3 I)) ltac:(call_cases))
    as U4.
  unfold calls, events in N4, U4.
  destruct (shader_run P s3) as [[o4 s4] t4]. cbn [fst snd] in *.
  destruct o4 as [[] | |]; cbn [fst snd]; [| no_cleanup ..].
  destruct (shader_unload_trace s4) as (R5 & T5 & _).
  unfold result, events in R5, T5.
  destruct (shader_unload P s4) as [[o5 s5] t5]. cbn [fst snd] in *.
  subst o5 t5.
  destruct (context_uninit_trace s5) as (R6 & T6 & _).
  unfold result, calls, events in R6, T6.
  destruct (context_uninit P s5) as [[o6 s6] t6]. cbn [fst snd] in *.
  subst o6. cbn [fst snd].
  rewrite !map_app, !existsb_app, T6. cbn.
  rewrite !orb_true_r. split; split; reflexivity.
Qed.

Ltac in_search :=
  solve [ reflexivity | left; in_search | right; in_search ].

(** X11. In a run of [main] that exits with status 0 the last four calls
    release what the run acquired: [glDeleteProgram] deletes the program
    that [glCreateProgram] returned and [glUseProgram] bound,
    [eglDestroyContext] destroys the context that [eglCreateContext]
    returned on the display of [eglGetPlatformDisplay], and
    [gbm_device_destroy] destroys the device that [gbm_create_device]
    made of the descriptor; between them, what is terminated is the null
    display.  In the end the context still holds the descriptor and the
    shader object still holds the deleted program. *)
Theorem main_releases_what_it_acquired (argc : Z) (argp : list string)
    (s : state W) :
  let run := main P argc argp s in
  result run = Returned 0 ->
  exists pre fd dev dpy config ectx prog destroyed terminated,
    events run =
      pre ++ Ev (c_glDeleteProgram prog) tt
          :: uninit_trace dpy ectx dev destroyed terminated /\
    In (Ev (c_open "/dev/dri/renderD128" O_RDWR) fd) pre /\
    In (Ev (c_gbm_create_device fd) dev) pre /\
    In (Ev (c_eglGetPlatformDisplay EGL_PLATFORM_GBM_MESA dev NULL) dpy) pre /\
    In (Ev (c_eglCreateContext dpy config EGL_NO_CONTEXT ctx_attr) ectx) pre /\
    In (Ev c_glCreateProgram prog) pre /\
    In (Ev (c_glUseProgram prog) tt) pre /\
    node_fd (ctx (final run)) = fd /\
    shdr (final run) = mk_shader prog.
Proof.
  cbv zeta. unfold main, bind, Return, result, final, events.
  (* context_init *)
  pose proof (proj2 (context_init_outcome s)) as H1.
  pose proof (context_init_keeps_shader s) as K1.
  unfold result, final, events in H1, K1.
  destruct (context_init P s) as [[o1 s1] t1]. cbn [fst snd] in *.
  destruct o1 as [[] | |]; cbn [fst snd]; try (intros X; discriminate X).
  destruct (H1 eq_refl)
    as (fd & dev & dpy & init & exts & chosen & bound & ectx & current
        & T1 & C1).
  clear H1.
  (* context_print_info *)
  pose proof (context_print_info_keeps_memory P s1) as (_ & C2 & _).
  unfold final in C2.
  destruct (context_print_info P s1) as [[o2 s2] t2]. cbn [fst snd] in *.
  destruct o2 as [[] | |]; cbn [fst snd]; try (intros X; discriminate X).
  (* shader_load *)
  pose proof (shader_load_returns "shader.cs" s2) as H3.
  unfold result, final, events in H3.
  destruct (shader_load P "shader.cs" s2) as [[o3 s3] t3].
  cbn [fst snd] in *.
  destruct o3 as [[] | |]; cbn [fst snd]; try (intros X; discriminate X).
  destruct (H3 eq_refl)
    as (f & sought & size & src & read & closed & printed & sh & status
        & prog & T3 & _ & _ & _ & _ & S3 & C3 & _).
  clear H3.
  (* shader_run *)
  pose proof (proj2 (shader_run_outcome s3)) as H4.
  pose proof (shader_run_keeps_memory s3) as [C4 S4].
  unfold result, final, events in H4, C4, S4.
  destruct (shader_run P s3) as [[o4 s4] t4]. cbn [fst snd] in *.
  destruct o4 as [[] | |]; cbn [fst snd]; try (intros X; discriminate X).
  specialize (H4 eq_refl).
  (* shader_unload *)
  pose proof (shader_unload_trace s4) as (R5 & T5 & C5 & S5).
  unfold result, final, events in R5, T5, C5, S5.
  destruct (shader_unload P s4) as [[o5 s5] t5]. cbn [fst snd] in *.
  subst o5 t5.
  (* context_uninit *)
  pose proof (context_uninit_trace s5) as (R6 & _ & C6 & S6).
  pose proof (context_uninit_events s5) as (destroyed & terminated & T6).
  unfold result, final, events in R6, C6, S6, T6.
  destruct (context_uninit P s5) as [[o6 s6] t6]. cbn [fst snd] in *.
  subst o6 t6. cbn [fst snd]. intros _.
  assert (Cx : ctx s5 = mk_context (fst (snd init)) (snd (snd init))
                                   dev dpy ectx fd)
    by congruence.
  assert (Sx : shdr s5 = mk_shader prog) by congruence.
  exists (t1 ++ t2 ++ t3 ++ t4), fd, dev, dpy, (fst (snd chosen)), ectx,
    prog, destroyed, terminated.
  rewrite C6, S6, Cx, Sx, S4, S3. cbn.
  split; [rewrite <- !app_assoc; reflexivity |].
  rewrite S3 in H4. cbn in H4. subst t1 t3 t4.
  unfold init_trace, link_trace, run_trace. rewrite !in_app_iff. cbn.
  repeat split; in_search.
Qed.
End Operations.

(** * The further properties on the simulated machine *)

(** A run to which X3 applies: the good machine loads its kernel. *)
Lemma shader_load_success_trace_witness :
  let run :=
    shader_load (sim sim_good) "shader.cs" (sim_initialized sim_good) in
  result run = Returned tt /\
  exists f sought size src read closed printed sh status prog,
    events run =
      read_trace "shader.cs" f sought size src read closed
      ++ source_line (verbose (sim_initialized sim_good))
                     (source_text size read) printed
      ++ compile_trace sh (source_text size read) status
      ++ link_trace sh prog /\
    f <> NULL /\
    0 <= size /\
    src <> NULL /\
    status <> GL_FALSE /\
    shdr (final run) = mk_shader prog /\
    ctx (final run) = ctx (sim_initialized sim_good) /\
    verbose (final run) = verbose (sim_initialized sim_good).
Proof.
  cbv zeta. split.
  - vm_compute. reflexivity.
  - apply (shader_load_success_trace (sim sim_good) "shader.cs"
             (sim_initialized sim_good)).
    vm_compute. reflexivity.
Defined.

(** A run to which X4 applies: the good machine without the file. *)
Lemma shader_load_missing_file_witness :
  let P := no_file (sim sim_good) in
  let run := shader_load P "shader.cs" (sim_initialized sim_good) in
  fst (P (c_fopen "shader.cs" "rb") (world (sim_initialized sim_good)))
    = NULL /\
  (result run = Aborted /\
   events run = [Ev (c_fopen "shader.cs" "rb") NULL] /\
   ctx (final run) = ctx (sim_initialized sim_good) /\
   shdr (final run) = shdr (sim_initialized sim_good) /\
   verbose (final run) = verbose (sim_initialized sim_good)).
Proof.
  cbv zeta. split.
  - vm_compute. reflexivity.
  - apply (shader_load_missing_file (no_file (sim sim_good)) "shader.cs"
             (sim_initialized sim_good)).
    vm_compute. reflexivity.
Defined.

(** A run to which X5 applies: the program that did not link is refused
    the bind. *)
Lemma shader_run_refused_bind_witness :
  let P := sim sim_link_rejected in
  let run := shader_run P (sim_loaded sim_link_rejected) in
  nth_error (events run) 1 = Some (Ev c_glGetError GL_INVALID_OPERATION) /\
  GL_INVALID_OPERATION <> GL_NO_ERROR /\
  (result run = Aborted /\
   calls run =
     [c_glUseProgram (program_id (shdr (sim_loaded sim_link_rejected)));
      c_glGetError] /\
   existsb is_dispatch (calls run) = false).
Proof.
  cbv zeta. split; [vm_compute; reflexivity |].
  split; [discriminate |].
  apply (shader_run_refused_bind (sim sim_link_rejected)
           (sim_loaded sim_link_rejected) GL_INVALID_OPERATION).
  - vm_compute. reflexivity.
  - discriminate.
Defined.

(** A run to which X8 applies: the extension string of the good machine. *)
Lemma extension_check_is_substring_test_witness :
  let exts := "EGL_KHR_create_context EGL_KHR_surfaceless_context" in
  let run := context_init (sim sim_good) sim_start in
  nth_error (events run) 4
    = Some (Ev (c_eglQueryString 0x2000 EGL_EXTENSIONS) (Some exts)) /\
  ((nth_error (calls run) 5 = Some (c_eglChooseConfig 0x2000 attr_list 1) <->
    occurs "EGL_KHR_create_context" exts /\
    occurs "EGL_KHR_surfaceless_context" exts) /\
   (nth_error (calls run) 5 = None -> result run = Aborted)).
Proof.
  cbv zeta. split.
  - vm_compute. reflexivity.
  - apply (extension_check_is_substring_test (sim sim_good) sim_start 0x2000
             "EGL_KHR_create_context EGL_KHR_surfaceless_context").
    vm_compute. reflexivity.
Defined.

(** The name of another extension is enough for the check. *)
Example longer_name_passes_the_check :
  occurs "EGL_KHR_create_context"
         "EGL_KHR_create_context_no_error EGL_KHR_surfaceless_context".
Proof. exists 0%nat. reflexivity. Qed.

(** A run to which X11 applies: the complete run of the good machine. *)
Lemma main_releases_what_it_acquired_witness :
  let run := main (sim sim_good) 1 command_line sim_start in
  result run = Returned 0 /\
  exists pre fd dev dpy config ectx prog destroyed terminated,
    events run =
      pre ++ Ev (c_glDeleteProgram prog) tt
          :: uninit_trace dpy ectx dev destroyed terminated /\
    In (Ev (c_open "/dev/dri/renderD128" O_RDWR) fd) pre /\
    In (Ev (c_gbm_create_device fd) dev) pre /\
    In (Ev (c_eglGetPlatformDisplay EGL_PLATFORM_GBM_MESA dev NULL) dpy) pre /\
    In (Ev (c_eglCreateContext dpy config EGL_NO_CONTEXT ctx_attr) ectx) pre /\
    In (Ev c_glCreateProgram prog) pre /\
    In (Ev (c_glUseProgram prog) tt) pre /\
    node_fd (ctx (final run)) = fd /\
    shdr (final run) = mk_shader prog.
Proof.
  cbv zeta. split.
  - vm_compute. reflexivity.
  - apply (main_releases_what_it_acquired (sim sim_good) 1 command_line
             sim_start).
    vm_compute. reflexivity.
Defined.
